(** * tundokusupa backend: a model of [backend/main.go]

    The service is a set of HTTP handlers over a PostgREST store (tables
    [users] and [books] of the schema file) and the LINE push API.  The
    handlers are embedded as computations over an explicit [World]: the two
    tables, the process environment, the answers of the outside world (store
    faults, generated keys, the store's clock, the push API's replies, the
    random source) and a trace of the calls made. *)

From Stdlib Require Import String Ascii List ZArith Bool Arith Lia DecimalString.
Import ListNotations.

Local Open Scope string_scope.
Local Open Scope list_scope.
Local Open Scope Z_scope.

(** ** Time

    A [time.Time] is held as the instant it denotes, in nanoseconds since the
    Unix epoch. *)

Definition Time := Z.

(** [time.Second], in nanoseconds. *)
Definition Second : Z := 1000000000.

(** The zero [time.Time], January 1, year 1, 00:00:00 UTC. *)
Definition zeroTime : Time := -62135596800 * Second.

(** [t.Format(time.RFC3339)]: the layout [2006-01-02T15:04:05Z07:00] has no
    fractional seconds, so the text denotes [t] cut down to a whole second.
    The text is held as that instant. *)
Definition RFC3339 (t : Time) : Time := (t / Second) * Second.

(** ** Values of the store and of its JSON answers

    A column of the schema is [TEXT] or [UUID] (both carried as text),
    [INTEGER] or [TIMESTAMP WITH TIME ZONE]; PostgREST answers with one JSON
    object per row, from column names to these values. *)

Inductive Value :=
| Text (s : string)
| Integer (n : Z)
| Timestamptz (t : Time).

Definition Object := list (string * Value).

Definition value_eqb (a b : Value) : option bool :=
  match a, b with
  | Text x, Text y => Some (String.eqb x y)
  | Integer x, Integer y => Some (Z.eqb x y)
  | Timestamptz x, Timestamptz y => Some (Z.eqb x y)
  | _, _ => None
  end.

Definition value_ltb (a b : Value) : option bool :=
  match a, b with
  | Text x, Text y => Some (match String.compare x y with Lt => true | _ => false end)
  | Integer x, Integer y => Some (Z.ltb x y)
  | Timestamptz x, Timestamptz y => Some (Z.ltb x y)
  | _, _ => None
  end.

(** [m[key]] on a [map[string]interface{}]. *)
Fixpoint index (key : string) (m : Object) : option Value :=
  match m with
  | [] => None
  | (k, v) :: rest =>
      match index key rest with
      | Some v' => Some v'
      | None => if String.eqb k key then Some v else None
      end
  end.

(** ** [encoding/json]: which key fills which struct field

    [json.Unmarshal] gives a key of the object to the struct field whose
    [json] tag equals it, or equals it up to the case of letters; no other
    folding takes place (an underscore is a character like any other).  A
    later key overrides an earlier one; a field no key fills, or whose value
    has the wrong kind, keeps its zero value.  (A timestamp is held as the
    instant, not as its text, so a timestamp given to a text field is not
    covered; no column of the schema does that.) *)

Definition upper (c : ascii) : ascii :=
  let n := nat_of_ascii c in
  if (Nat.leb 97 n && Nat.leb n 122)%bool then ascii_of_nat (n - 32) else c.

Fixpoint foldName (s : string) : string :=
  match s with
  | EmptyString => EmptyString
  | String c rest => String (upper c) (foldName rest)
  end.

Definition tag_matches (tag key : string) : bool :=
  (String.eqb key tag || String.eqb (foldName key) (foldName tag))%bool.

Fixpoint field (tag : string) (o : Object) : option Value :=
  match o with
  | [] => None
  | (k, v) :: rest =>
      match field tag rest with
      | Some v' => Some v'
      | None => if tag_matches tag k then Some v else None
      end
  end.

Definition as_string (v : option Value) : string :=
  match v with Some (Text s) => s | _ => "" end.

Definition as_int (v : option Value) : Z :=
  match v with Some (Integer n) => n | _ => 0 end.

Definition as_time (v : option Value) : Time :=
  match v with Some (Timestamptz t) => t | _ => zeroTime end.

(** ** The Go structs *)

Record LineAuthRequest := {
  LineAccessToken : string;   (* json:"lineAccessToken" *)
  LineUserID : string         (* json:"lineUserID" *)
}.

Record Book := {
  BookID : string;        (* json:"bookId" *)
  UserID : string;        (* json:"userId" *)
  Title : string;         (* json:"title" *)
  Author : string;        (* json:"author" *)
  Deadline : Time;        (* json:"deadline" *)
  Status : string;        (* json:"status" *)
  InsultLevel : Z;        (* json:"insultLevel" *)
  CreatedAt : Time;       (* json:"createdAt" *)
  UpdatedAt : Time        (* json:"updatedAt" *)
}.

(** [json.Unmarshal] of one object into a [Book]. *)
Definition unmarshal_Book (o : Object) : Book :=
  {| BookID := as_string (field "bookId" o);
     UserID := as_string (field "userId" o);
     Title := as_string (field "title" o);
     Author := as_string (field "author" o);
     Deadline := as_time (field "deadline" o);
     Status := as_string (field "status" o);
     InsultLevel := as_int (field "insultLevel" o);
     CreatedAt := as_time (field "createdAt" o);
     UpdatedAt := as_time (field "updatedAt" o) |}.

(** The anonymous request struct of [handleDeleteBook]. *)
Record DeleteRequest := {
  del_BookID : string;    (* json:"bookId" *)
  del_UserID : string     (* json:"userId" *)
}.

(** The anonymous request struct of [handleCompleteBook]: one field. *)
Record CompleteRequest := {
  cmp_BookID : string     (* json:"bookId" *)
}.

(** ** The tables of the schema *)

Module Users.
Record row := {
  id : string;              (* UUID PRIMARY KEY DEFAULT gen_random_uuid() *)
  display_name : string;    (* TEXT NOT NULL *)
  line_user_id : string;    (* TEXT UNIQUE NOT NULL *)
  created_at : Time;        (* DEFAULT NOW() *)
  updated_at : Time         (* DEFAULT NOW() *)
}.

Definition object (r : row) : Object :=
  [ ("id", Text (id r));
    ("display_name", Text (display_name r));
    ("line_user_id", Text (line_user_id r));
    ("created_at", Timestamptz (created_at r));
    ("updated_at", Timestamptz (updated_at r)) ].

Definition blank (uuid : string) (now : Time) : row :=
  {| id := uuid; display_name := ""; line_user_id := "";
     created_at := now; updated_at := now |}.

Definition not_null : list string := ["display_name"; "line_user_id"].

Definition assign (c : string) (v : Value) (r : row) : option row :=
  match v with
  | Text s =>
      if String.eqb c "id" then
        Some {| id := s; display_name := display_name r; line_user_id := line_user_id r;
                created_at := created_at r; updated_at := updated_at r |}
      else if String.eqb c "display_name" then
        Some {| id := id r; display_name := s; line_user_id := line_user_id r;
                created_at := created_at r; updated_at := updated_at r |}
      else if String.eqb c "line_user_id" then
        Some {| id := id r; display_name := display_name r; line_user_id := s;
                created_at := created_at r; updated_at := updated_at r |}
      else None
  | Timestamptz t =>
      if String.eqb c "created_at" then
        Some {| id := id r; display_name := display_name r; line_user_id := line_user_id r;
                created_at := t; updated_at := updated_at r |}
      else if String.eqb c "updated_at" then
        Some {| id := id r; display_name := display_name r; line_user_id := line_user_id r;
                created_at := created_at r; updated_at := t |}
      else None
  | Integer _ => None
  end.
End Users.

Module Books.
Record row := {
  book_id : string;         (* UUID PRIMARY KEY DEFAULT gen_random_uuid() *)
  user_id : string;         (* UUID REFERENCES users(id) NOT NULL *)
  title : string;           (* TEXT NOT NULL *)
  author : string;          (* TEXT NOT NULL *)
  deadline : Time;          (* TIMESTAMP WITH TIME ZONE NOT NULL *)
  status : string;          (* TEXT NOT NULL DEFAULT 'unread' *)
  insult_level : Z;         (* INTEGER NOT NULL DEFAULT 3 *)
  created_at : Time;        (* DEFAULT NOW() *)
  updated_at : Time         (* DEFAULT NOW() *)
}.

Definition object (r : row) : Object :=
  [ ("book_id", Text (book_id r));
    ("user_id", Text (user_id r));
    ("title", Text (title r));
    ("author", Text (author r));
    ("deadline", Timestamptz (deadline r));
    ("status", Text (status r));
    ("insult_level", Integer (insult_level r));
    ("created_at", Timestamptz (created_at r));
    ("updated_at", Timestamptz (updated_at r)) ].

Definition blank (uuid : string) (now : Time) : row :=
  {| book_id := uuid; user_id := ""; title := ""; author := ""; deadline := now;
     status := "unread"; insult_level := 3; created_at := now; updated_at := now |}.

Definition not_null : list string := ["user_id"; "title"; "author"; "deadline"].

Definition set_status (s : string) (r : row) : row :=
  {| book_id := book_id r; user_id := user_id r; title := title r; author := author r;
     deadline := deadline r; status := s; insult_level := insult_level r;
     created_at := created_at r; updated_at := updated_at r |}.

Definition set_updated_at (t : Time) (r : row) : row :=
  {| book_id := book_id r; user_id := user_id r; title := title r; author := author r;
     deadline := deadline r; status := status r; insult_level := insult_level r;
     created_at := created_at r; updated_at := t |}.

Definition assign (c : string) (v : Value) (r : row) : option row :=
  match v with
  | Text s =>
      if String.eqb c "book_id" then
        Some {| book_id := s; user_id := user_id r; title := title r; author := author r;
                deadline := deadline r; status := status r; insult_level := insult_level r;
                created_at := created_at r; updated_at := updated_at r |}
      else if String.eqb c "user_id" then
        Some {| book_id := book_id r; user_id := s; title := title r; author := author r;
                deadline := deadline r; status := status r; insult_level := insult_level r;
                created_at := created_at r; updated_at := updated_at r |}
      else if String.eqb c "title" then
        Some {| book_id := book_id r; user_id := user_id r; title := s; author := author r;
                deadline := deadline r; status := status r; insult_level := insult_level r;
                created_at := created_at r; updated_at := updated_at r |}
      else if String.eqb c "author" then
        Some {| book_id := book_id r; user_id := user_id r; title := title r; author := s;
                deadline := deadline r; status := status r; insult_level := insult_level r;
                created_at := created_at r; updated_at := updated_at r |}
      else if String.eqb c "status" then Some (set_status s r)
      else None
  | Integer n =>
      if String.eqb c "insult_level" then
        Some {| book_id := book_id r; user_id := user_id r; title := title r; author := author r;
                deadline := deadline r; status := status r; insult_level := n;
                created_at := created_at r; updated_at := updated_at r |}
      else None
  | Timestamptz t =>
      if String.eqb c "deadline" then
        Some {| book_id := book_id r; user_id := user_id r; title := title r; author := author r;
                deadline := t; status := status r; insult_level := insult_level r;
                created_at := created_at r; updated_at := updated_at r |}
      else if String.eqb c "created_at" then
        Some {| book_id := book_id r; user_id := user_id r; title := title r; author := author r;
                deadline := deadline r; status := status r; insult_level := insult_level r;
                created_at := t; updated_at := updated_at r |}
      else if String.eqb c "updated_at" then Some (set_updated_at t r)
      else None
  end.
End Books.

(** ** The query builder and the store's reading of a query *)

Module postgrest.
Inductive Filter :=
| Eq (column : string) (value : Value)
| In (column : string) (values : list Value)
| Lt (column : string) (value : Value).

Inductive Operation :=
| Select (columns : string)
| Insert (data : Object)
| Update (data : Object)
| Delete.
End postgrest.

Import postgrest (Filter, Operation).

(** A result of [Execute()]: the answer, or the error. *)
Inductive result (A : Type) :=
| Ok (a : A)
| Err (e : string).
Arguments Ok {A} a.
Arguments Err {A} e.

(** The push API's answer to one request: no answer at all, or a status. *)
Inductive LineReply :=
| Unreachable (err : string)
| Answered (code : nat).

Inductive Event :=
| Execute (table : string) (op : Operation) (filters : list Filter) (err : option string)
| Push (to message : string) (reply : LineReply)
| Printf (line : string).

(** ** The world a handler runs in *)

Record World := {
  users : list Users.row;
  books : list Books.row;
  (* the process environment, [os.Getenv] *)
  environ : list (string * string);
  (* the outside: what the n-th store call fails with (if it fails), the key
     and the clock reading the store gives the n-th call, the push API's
     answer to the n-th push, the n-th number of the random source *)
  store_fault : nat -> option string;
  gen_random_uuid : nat -> string;
  NOW : nat -> Time;
  line_api : nat -> LineReply;
  rand_source : nat -> nat;
  (* how much of the outside has been consumed *)
  executed : nat;
  pushed : nat;
  drawn : nat;
  (* the calls made, the latest first *)
  trace : list Event
}.

Definition with_users (us : list Users.row) (w : World) : World :=
  {| users := us; books := books w; environ := environ w;
     store_fault := store_fault w; gen_random_uuid := gen_random_uuid w; NOW := NOW w;
     line_api := line_api w; rand_source := rand_source w;
     executed := executed w; pushed := pushed w; drawn := drawn w; trace := trace w |}.

Definition with_books (bs : list Books.row) (w : World) : World :=
  {| users := users w; books := bs; environ := environ w;
     store_fault := store_fault w; gen_random_uuid := gen_random_uuid w; NOW := NOW w;
     line_api := line_api w; rand_source := rand_source w;
     executed := executed w; pushed := pushed w; drawn := drawn w; trace := trace w |}.

(** One more store call made, and recorded. *)
Definition executing (ev : Event) (w : World) : World :=
  {| users := users w; books := books w; environ := environ w;
     store_fault := store_fault w; gen_random_uuid := gen_random_uuid w; NOW := NOW w;
     line_api := line_api w; rand_source := rand_source w;
     executed := S (executed w); pushed := pushed w; drawn := drawn w;
     trace := ev :: trace w |}.

Definition pushing (ev : Event) (w : World) : World :=
  {| users := users w; books := books w; environ := environ w;
     store_fault := store_fault w; gen_random_uuid := gen_random_uuid w; NOW := NOW w;
     line_api := line_api w; rand_source := rand_source w;
     executed := executed w; pushed := S (pushed w); drawn := drawn w;
     trace := ev :: trace w |}.

Definition drawing (w : World) : World :=
  {| users := users w; books := books w; environ := environ w;
     store_fault := store_fault w; gen_random_uuid := gen_random_uuid w; NOW := NOW w;
     line_api := line_api w; rand_source := rand_source w;
     executed := executed w; pushed := pushed w; drawn := S (drawn w); trace := trace w |}.

Definition logging (line : string) (w : World) : World :=
  {| users := users w; books := books w; environ := environ w;
     store_fault := store_fault w; gen_random_uuid := gen_random_uuid w; NOW := NOW w;
     line_api := line_api w; rand_source := rand_source w;
     executed := executed w; pushed := pushed w; drawn := drawn w;
     trace := Printf line :: trace w |}.

(** ** Handlers as computations

    A computation runs in a world and either finishes with a value or
    panics; the world it leaves is returned in both cases. *)

Inductive Outcome (A : Type) :=
| Done (a : A)
| Panic (msg : string).
Arguments Done {A} a.
Arguments Panic {A} msg.

Definition M (A : Type) : Type := World -> Outcome A * World.

Definition ret {A} (a : A) : M A := fun w => (Done a, w).

Definition bind {A B} (m : M A) (k : A -> M B) : M B :=
  fun w =>
    match m w with
    | (Done a, w') => k a w'
    | (Panic msg, w') => (Panic msg, w')
    end.

Definition panic {A} (msg : string) : M A := fun w => (Panic msg, w).

Declare Scope go_scope.
Delimit Scope go_scope with go.
Notation "x <- m ;; k" := (bind m (fun x => k))
  (at level 100, m at next level, right associativity) : go_scope.
Notation "m ;;; k" := (bind m (fun _ => k))
  (at level 100, right associativity) : go_scope.
Local Open Scope go_scope.

(** [os.Getenv]: the value of the variable, empty when it is not set. *)
Fixpoint lookup_env (key : string) (env : list (string * string)) : string :=
  match env with
  | [] => ""
  | (k, v) :: rest => if String.eqb k key then v else lookup_env key rest
  end.

Definition Getenv (key : string) : M string :=
  fun w => (Done (lookup_env key (environ w)), w).

(** [log.Printf]. *)
Definition log_Printf (line : string) : M unit :=
  fun w => (Done tt, logging line w).

(** [rand.Intn(n)], for [n > 0]. *)
Definition rand_Intn (n : nat) : M nat :=
  fun w => (Done (Nat.modulo (rand_source w (drawn w)) n), drawing w).

(** ** The store

    A table is a list of rows, in the store's row order.  What a table needs
    to take part in a query: its name, where it lives in the world, the JSON
    object of a row, the assignment of a value to a column, the row an
    [INSERT] starts from (keys and defaults), the columns an [INSERT] has to
    give, and the constraint a new row may break.

    A call that fails leaves the tables as they were.  Keys are carried as
    text: the refusal of an operand that is not a well-formed uuid is one of
    the failures [store_fault] stands for. *)

Class Table (R : Type) := {
  name : string;
  rows : World -> list R;
  put_rows : list R -> World -> World;
  object : R -> Object;
  assign : string -> Value -> R -> option R;
  blank : string -> Time -> R;
  not_null : list string;
  violates : R -> World -> option string
}.

#[export] Instance users_table : Table Users.row := {|
  name := "users";
  rows := users;
  put_rows := with_users;
  object := Users.object;
  assign := Users.assign;
  blank := Users.blank;
  not_null := Users.not_null;
  violates := fun r w =>
    if existsb (fun u => String.eqb (Users.id u) (Users.id r)) (users w)
    then Some "duplicate key value violates unique constraint users_pkey"
    else if existsb (fun u => String.eqb (Users.line_user_id u) (Users.line_user_id r)) (users w)
    then Some "duplicate key value violates unique constraint users_line_user_id_key"
    else None
|}.

#[export] Instance books_table : Table Books.row := {|
  name := "books";
  rows := books;
  put_rows := with_books;
  object := Books.object;
  assign := Books.assign;
  blank := Books.blank;
  not_null := Books.not_null;
  violates := fun r w =>
    if existsb (fun b => String.eqb (Books.book_id b) (Books.book_id r)) (books w)
    then Some "duplicate key value violates unique constraint books_pkey"
    else if negb (existsb (fun u => String.eqb (Users.id u) (Books.user_id r)) (users w))
    then Some "insert on table books violates foreign key constraint books_user_id_fkey"
    else None
|}.

(** What the store answers to a query it cannot type: a column the table
    does not have, or an operand of another type than the column. *)
Definition undefined_column : string := "column or operator does not exist".
Definition not_null_violation : string := "null value in column violates not-null constraint".

Section Store.
Context {R : Type} `{Table R}.

Definition column (c : string) (r : R) : option Value := index c (object r).

Fixpoint among (x : Value) (vs : list Value) : option bool :=
  match vs with
  | [] => Some false
  | v :: rest =>
      match value_eqb x v, among x rest with
      | Some b, Some b' => Some (b || b')%bool
      | _, _ => None
      end
  end.

Definition holds (f : Filter) (r : R) : option bool :=
  match f with
  | postgrest.Eq c v =>
      match column c r with Some x => value_eqb x v | None => None end
  | postgrest.In c vs =>
      match column c r with Some x => among x vs | None => None end
  | postgrest.Lt c v =>
      match column c r with Some x => value_ltb x v | None => None end
  end.

(** A row is in the scope of a query when every filter holds of it. *)
Fixpoint in_scope (fs : list Filter) (r : R) : option bool :=
  match fs with
  | [] => Some true
  | f :: rest =>
      match holds f r, in_scope rest r with
      | Some b, Some b' => Some (b && b')%bool
      | _, _ => None
      end
  end.

Fixpoint select_rows (fs : list Filter) (l : list R) : option (list R) :=
  match l with
  | [] => Some []
  | r :: rest =>
      match in_scope fs r, select_rows fs rest with
      | Some b, Some l' => Some (if b then r :: l' else l')
      | _, _ => None
      end
  end.

Fixpoint delete_rows (fs : list Filter) (l : list R) : option (list R) :=
  match l with
  | [] => Some []
  | r :: rest =>
      match in_scope fs r, delete_rows fs rest with
      | Some b, Some l' => Some (if b then l' else r :: l')
      | _, _ => None
      end
  end.

Fixpoint assign_all (data : Object) (r : R) : option R :=
  match data with
  | [] => Some r
  | (c, v) :: rest =>
      match assign c v r with
      | Some r' => assign_all rest r'
      | None => None
      end
  end.

Fixpoint update_rows (data : Object) (fs : list Filter) (l : list R) : option (list R) :=
  match l with
  | [] => Some []
  | r :: rest =>
      match in_scope fs r, update_rows data fs rest with
      | Some true, Some l' =>
          match assign_all data r with
          | Some r' => Some (r' :: l')
          | None => None
          end
      | Some false, Some l' => Some (r :: l')
      | _, _ => None
      end
  end.

(** The JSON answer for one row: every column for ["*"], else the one
    column named. *)
Definition render (columns : string) (r : R) : option Object :=
  if String.eqb columns "*" then Some (object r)
  else match column columns r with
       | Some v => Some [(columns, v)]
       | None => None
       end.

Fixpoint render_all (columns : string) (l : list R) : option (list Object) :=
  match l with
  | [] => Some []
  | r :: rest =>
      match render columns r, render_all columns rest with
      | Some o, Some os => Some (o :: os)
      | _, _ => None
      end
  end.

Definition given (data : Object) (c : string) : bool :=
  existsb (fun kv => String.eqb (fst kv) c) data.

(** [From(name).Select(columns, "exact", false). filters .Execute()] *)
Definition select (columns : string) (fs : list Filter) : M (result (list Object)) :=
  fun w =>
    let answer :=
      match store_fault w (executed w) with
      | Some e => Err e
      | None =>
          match select_rows fs (rows w) with
          | Some l =>
              match render_all columns l with
              | Some os => Ok os
              | None => Err undefined_column
              end
          | None => Err undefined_column
          end
      end in
    (Done answer,
     executing (Execute name (postgrest.Select columns) fs
                  (match answer with Ok _ => None | Err e => Some e end)) w).

(** [From(name).Insert(data, false, "", "", "").Execute()]: the new row gets
    its key and its defaults from the store, then the values given; it is
    added at the end of the table unless a constraint refuses it. *)
Definition insert (data : Object) : M (result unit) :=
  fun w =>
    let added :=
      match store_fault w (executed w) with
      | Some e => Err e
      | None =>
          if forallb (given data) not_null then
            match assign_all data (blank (gen_random_uuid w (executed w)) (NOW w (executed w))) with
            | Some r =>
                match violates r w with
                | Some e => Err e
                | None => Ok r
                end
            | None => Err undefined_column
            end
          else Err not_null_violation
      end in
    match added with
    | Ok r => (Done (Ok tt),
               executing (Execute name (postgrest.Insert data) [] None)
                 (put_rows (rows w ++ [r]) w))
    | Err e => (Done (Err e),
                executing (Execute name (postgrest.Insert data) [] (Some e)) w)
    end.

(** [From(name).Update(data, "", ""). filters .Execute()] *)
Definition update (data : Object) (fs : list Filter) : M (result unit) :=
  fun w =>
    let updated :=
      match store_fault w (executed w) with
      | Some e => Err e
      | None =>
          match update_rows data fs (rows w) with
          | Some l => Ok l
          | None => Err undefined_column
          end
      end in
    match updated with
    | Ok l => (Done (Ok tt),
               executing (Execute name (postgrest.Update data) fs None) (put_rows l w))
    | Err e => (Done (Err e),
                executing (Execute name (postgrest.Update data) fs (Some e)) w)
    end.

(** [From(name).Delete("", ""). filters .Execute()] *)
Definition delete (fs : list Filter) : M (result unit) :=
  fun w =>
    let remaining :=
      match store_fault w (executed w) with
      | Some e => Err e
      | None =>
          match delete_rows fs (rows w) with
          | Some l => Ok l
          | None => Err undefined_column
          end
      end in
    match remaining with
    | Ok l => (Done (Ok tt),
               executing (Execute name postgrest.Delete fs None) (put_rows l w))
    | Err e => (Done (Err e),
                executing (Execute name postgrest.Delete fs (Some e)) w)
    end.
End Store.

Arguments select R {_} columns fs.
Arguments insert R {_} data.
Arguments update R {_} data fs.
Arguments delete R {_} fs.

(** ** HTTP answers *)

Definition StatusOK : nat := 200.
Definition StatusCreated : nat := 201.
Definition StatusBadRequest : nat := 400.
Definition StatusUnauthorized : nat := 401.
Definition StatusInternalServerError : nat := 500.

(** The body written: plain text ([http.Error]), the JSON object
    [{"message": m}], or the store's JSON answer passed on as it came.
    Headers are left out. *)
Inductive Body :=
| Plain (text : string)
| Message (m : string)
| Rows (os : list Object).

Record Response := {
  code : nat;
  body : Body
}.

Definition newline : string := String (ascii_of_nat 10) EmptyString.

(** [http.Error(w, msg, code)] followed by [return]: the text and a newline. *)
Definition http_Error (msg : string) (c : nat) : M Response :=
  ret {| code := c; body := Plain (msg ++ newline) |}.

(** [json.NewEncoder(w).Encode(map[string]string{"message": m})] after
    [WriteHeader(c)] (200 when the handler writes no header). *)
Definition respond (c : nat) (m : string) : M Response :=
  ret {| code := c; body := Message m |}.

(** [fmt.Sprintf("%d", n)] *)
Definition Sprintf_d (n : nat) : string := NilEmpty.string_of_uint (Nat.to_uint n).

(** ** The handlers

    A handler's request body comes in decoded:
    [json.NewDecoder(r.Body).Decode(&req)] has failed ([None]) or has filled
    the struct.  [now] is what [time.Now()] reads during the request. *)

Definition handleLineAuth (decoded : option LineAuthRequest) : M Response :=
  match decoded with
  | None => http_Error "Invalid request" StatusBadRequest
  | Some req =>
      r <- select Users.row "*" [postgrest.Eq "line_user_id" (Text (LineUserID req))] ;;
      match r with
      | Err err =>
          log_Printf ("[ERROR] handleLineAuth query error: " ++ err) ;;;
          http_Error ("failed to query user: " ++ err) StatusInternalServerError
      | Ok results =>
          match results with
          | [] =>
              let newUser := [ ("line_user_id", Text (LineUserID req));
                               ("display_name", Text "LINE User") ] in
              i <- insert Users.row newUser ;;
              match i with
              | Err err =>
                  log_Printf ("[ERROR] handleLineAuth insert error: " ++ err) ;;;
                  http_Error ("failed to create user: " ++ err) StatusInternalServerError
              | Ok _ => respond StatusOK "Auth pre-check successful"
              end
          | _ :: _ => respond StatusOK "Auth pre-check successful"
          end
      end
  end.

Definition handleGetBooks (userId : string) : M Response :=
  if String.eqb userId "" then http_Error "userId required" StatusBadRequest
  else
    r <- select Books.row "*" [postgrest.Eq "user_id" (Text userId)] ;;
    match r with
    | Err err =>
        log_Printf ("[ERROR] handleGetBooks error: " ++ err) ;;;
        http_Error ("failed to fetch books: " ++ err) StatusInternalServerError
    | Ok resp => ret {| code := StatusOK; body := Rows resp |}
    end.

Definition handleRegisterBook (decoded : option Book) : M Response :=
  match decoded with
  | None => http_Error "Invalid request" StatusBadRequest
  | Some book =>
      if (String.eqb (Title book) "" || String.eqb (Author book) ""
          || String.eqb (UserID book) "")%bool
      then http_Error "Missing required fields" StatusBadRequest
      else
        let status := if String.eqb (Status book) "" then "unread" else Status book in
        let insertData := [ ("user_id", Text (UserID book));
                            ("title", Text (Title book));
                            ("author", Text (Author book));
                            ("deadline", Timestamptz (Deadline book));
                            ("status", Text status);
                            ("insult_level", Integer (InsultLevel book)) ] in
        i <- insert Books.row insertData ;;
        match i with
        | Err err =>
            http_Error ("failed to register book: " ++ err) StatusInternalServerError
        | Ok _ => respond StatusCreated "Book registered successfully"
        end
  end.

Definition handleUpdateBook (now : Time) (decoded : option Book) : M Response :=
  match decoded with
  | None => http_Error "Invalid request" StatusBadRequest
  | Some book =>
      let updateData := [ ("title", Text (Title book));
                          ("author", Text (Author book));
                          ("deadline", Timestamptz (Deadline book));
                          ("status", Text (Status book));
                          ("insult_level", Integer (InsultLevel book));
                          ("updated_at", Timestamptz now) ] in
      u <- update Books.row updateData
             [postgrest.Eq "book_id" (Text (BookID book));
              postgrest.Eq "user_id" (Text (UserID book))] ;;
      match u with
      | Err err => http_Error ("failed to update book: " ++ err) StatusInternalServerError
      | Ok _ => respond StatusOK "Book updated successfully"
      end
  end.

Definition handleDeleteBook (decoded : option DeleteRequest) : M Response :=
  match decoded with
  | None => http_Error "Invalid request" StatusBadRequest
  | Some req =>
      d <- delete Books.row
             [postgrest.Eq "book_id" (Text (del_BookID req));
              postgrest.Eq "user_id" (Text (del_UserID req))] ;;
      match d with
      | Err err => http_Error ("failed to delete book: " ++ err) StatusInternalServerError
      | Ok _ => respond StatusOK "Book deleted successfully"
      end
  end.

Definition handleCompleteBook (now : Time) (decoded : option CompleteRequest) : M Response :=
  match decoded with
  | None => http_Error "Invalid request" StatusBadRequest
  | Some req =>
      u <- update Books.row [("status", Text "completed"); ("updated_at", Timestamptz now)]
             [postgrest.Eq "book_id" (Text (cmp_BookID req))] ;;
      match u with
      | Err err => http_Error ("failed to complete book: " ++ err) StatusInternalServerError
      | Ok _ => respond StatusOK "Book marked as completed"
      end
  end.

(** *** The deadline sweep *)

Definition insultMessages (book : Book) : list string :=
  [ "その本、まだ読んでないんですか？時間の無駄ですね。";
    "積読ですか。残念ですね。その本は二度と読まれないでしょう。";
    "知識は鮮度が命。その本はもう腐っています。";
    ("「" ++ Title book ++ "」を読むというタスクは、あなたの優先順位リストに存在しないようですね。")%string;
    "あなたの本棚、もはや墓場ですね。未完の志が眠る場所。" ].

Definition generateInsult (book : Book) : M string :=
  randomIndex <- rand_Intn (length (insultMessages book)) ;;
  ret (nth randomIndex (insultMessages book) "").

(** [(&http.Client{}).Do(req)] on the push request. *)
Definition post_push (to message : string) : M LineReply :=
  fun w => (Done (line_api w (pushed w)),
            pushing (Push to message (line_api w (pushed w))) w).

(** [sendLineMessage]: the error returned, [None] for [nil]. *)
Definition sendLineMessage (lineUserID message : string) : M (option string) :=
  accessToken <- Getenv "LINE_CHANNEL_ACCESS_TOKEN" ;;
  if String.eqb accessToken "" then ret (Some "LINE_CHANNEL_ACCESS_TOKEN is not set")
  else
    reply <- post_push lineUserID message ;;
    match reply with
    | Unreachable err => ret (Some err)
    | Answered c => if Nat.eqb c StatusOK then ret None else ret (Some "LINE API error")
    end.

(** [v.(string)] on an [interface{}] taken out of a map. *)
Definition assert_string (v : option Value) : M string :=
  match v with
  | Some (Text s) => ret s
  | _ => panic "interface conversion: interface {} is not string"
  end.

(** The body of [for _, book := range books], and the loop: [count] is the
    counter on entry, the value returned the counter on exit. *)
Definition notify (book : Book) (count : nat) : M nat :=
  insultMsg <- generateInsult book ;;
  r <- select Users.row "line_user_id" [postgrest.Eq "id" (Text (UserID book))] ;;
  match r with
  | Err _ => ret count
  | Ok users =>
      match users with
      | [] => ret count
      | user0 :: _ =>
          lineUserID <- assert_string (index "line_user_id" user0) ;;
          sent <- sendLineMessage lineUserID insultMsg ;;
          match sent with
          | Some _ => ret count
          | None =>
              update Books.row [("status", Text "insulted")]
                [postgrest.Eq "book_id" (Text (BookID book))] ;;;
              ret (S count)
          end
      end
  end.

Fixpoint range_books (books : list Book) (count : nat) : M nat :=
  match books with
  | [] => ret count
  | book :: rest =>
      count' <- notify book count ;;
      range_books rest count'
  end.

(** The filters of the sweep's query. *)
Definition overdue (now : Time) : list Filter :=
  [ postgrest.In "status" [Text "unread"; Text "insulted"];
    postgrest.Lt "deadline" (Timestamptz (RFC3339 now)) ].

Definition handleCheckDeadlines (now : Time) (authorization : string) : M Response :=
  cronSecret <- Getenv "CRON_SECRET" ;;
  if (negb (String.eqb cronSecret "")
      && negb (String.eqb authorization ("Bearer " ++ cronSecret)))%bool
  then http_Error "Unauthorized" StatusUnauthorized
  else
    r <- select Books.row "*" (overdue now) ;;
    match r with
    | Err err => http_Error ("database error: " ++ err) StatusInternalServerError
    | Ok resp =>
        let books := map unmarshal_Book resp in
        count <- range_books books 0 ;;
        respond StatusOK ("Checked deadlines. Found " ++ Sprintf_d count ++ " expired books.")
    end.

(** *** The routes

    A request as the mux of [main], [corsMiddleware] and [handleBooks] tell
    them apart: the route and method decide the handler, which gets the
    decoded body, the [userId] query parameter or the [Authorization]
    header. *)

Inductive Request :=
| Options                                                 (* OPTIONS, any route *)
| Root                                                    (* / *)
| Health                                                  (* /health *)
| PostAuthLine (decoded : option LineAuthRequest)         (* /api/auth/line *)
| GetBooks (userId : string)                              (* GET /api/books *)
| PostBooks (decoded : option Book)                       (* POST /api/books *)
| PutBooks (decoded : option Book)                        (* PUT /api/books *)
| DeleteBooks (decoded : option DeleteRequest)            (* DELETE /api/books *)
| OtherBooks                                              (* other methods on /api/books *)
| PostBooksComplete (decoded : option CompleteRequest)    (* /api/books/complete *)
| CronCheck (authorization : string).                     (* /api/cron/check *)

Definition StatusMethodNotAllowed : nat := 405.

Definition serve (now : Time) (rq : Request) : M Response :=
  match rq with
  | Options => ret {| code := StatusOK; body := Plain "" |}
  | Root =>
      ret {| code := StatusOK;
             body := Plain ("Hello from Backend (Supabase Edition)!" ++ newline) |}
  | Health => ret {| code := StatusOK; body := Plain ("OK" ++ newline) |}
  | PostAuthLine decoded => handleLineAuth decoded
  | GetBooks userId => handleGetBooks userId
  | PostBooks decoded => handleRegisterBook decoded
  | PutBooks decoded => handleUpdateBook now decoded
  | DeleteBooks decoded => handleDeleteBook decoded
  | OtherBooks => http_Error "Method not allowed" StatusMethodNotAllowed
  | PostBooksComplete decoded => handleCompleteBook now decoded
  | CronCheck authorization => handleCheckDeadlines now authorization
  end.

(** ** Reading a run *)

(** The pushes of a trace that the push API answered with 200. *)
Fixpoint delivered (tr : list Event) : nat :=
  match tr with
  | [] => 0%nat
  | Push _ _ (Answered c) :: rest =>
      if Nat.eqb c StatusOK then S (delivered rest) else delivered rest
  | _ :: rest => delivered rest
  end.

(** The pushes attempted. *)
Fixpoint pushes (tr : list Event) : nat :=
  match tr with
  | [] => 0%nat
  | Push _ _ _ :: rest => S (pushes rest)
  | _ :: rest => pushes rest
  end.

(** The lines logged. *)
Fixpoint printed (tr : list Event) : list string :=
  match tr with
  | [] => []
  | Printf line :: rest => line :: printed rest
  | _ :: rest => printed rest
  end.

(** A run that ends with an answer of status [c]. *)
Definition answers (c : nat) (run : Outcome Response * World) : Prop :=
  exists resp, fst run = Done resp /\ code resp = c.

(** [s] occurs in [text]. *)
Definition occurs (s text : string) : bool :=
  match String.index 0 s text with Some _ => true | None => false end.

Definition text_of (b : Body) : string :=
  match b with
  | Plain t => t
  | Message m => m
  | Rows _ => ""
  end.

(** The rows of [users] with a given external id. *)
Definition with_line_user_id (x : string) (us : list Users.row) : list Users.row :=
  filter (fun u => String.eqb (Users.line_user_id u) x) us.

(** A book as [handleCompleteBook] leaves it. *)
Definition completed (now : Time) (r : Books.row) : Books.row :=
  Books.set_updated_at now (Books.set_status "completed" r).

(** The rows of [users] with a given key. *)
Definition with_id (x : string) (us : list Users.row) : list Users.row :=
  filter (fun u => String.eqb (Users.id u) x) us.

(** [books] after [insulted] is written into the rows with book id [x]. *)
Definition insulted_by_id (x : string) (bs : list Books.row) : list Books.row :=
  map (fun r => if String.eqb (Books.book_id r) x
                then Books.set_status "insulted" r else r) bs.

(** The status column after a sweep: a row keeps its place and every column
    but [status], which is as it was or [insulted]. *)
Definition only_insulted (before after : list Books.row) : Prop :=
  Forall2 (fun r r' => r' = r \/ r' = Books.set_status "insulted" r) before after.

(** What the sweep's query keeps. *)
Definition is_overdue (now : Time) (r : Books.row) : bool :=
  ((String.eqb (Books.status r) "unread" || String.eqb (Books.status r) "insulted")
   && (Books.deadline r <? RFC3339 now))%bool.

(** *** The first store call of each route

    Whether a request gets as far as the handler's first store call, the text
    the handler puts before the error when that call fails, and the line it
    logs, if it logs one. *)

Definition goes_to_store (w : World) (rq : Request) : bool :=
  match rq with
  | PostAuthLine (Some _) => true
  | GetBooks userId => negb (String.eqb userId "")
  | PostBooks (Some book) =>
      negb (String.eqb (Title book) "" || String.eqb (Author book) ""
            || String.eqb (UserID book) "")
  | PutBooks (Some _) => true
  | DeleteBooks (Some _) => true
  | PostBooksComplete (Some _) => true
  | CronCheck authorization =>
      let cronSecret := lookup_env "CRON_SECRET" (environ w) in
      negb (negb (String.eqb cronSecret "")
            && negb (String.eqb authorization ("Bearer " ++ cronSecret)))
  | _ => false
  end.

Definition failure_text (rq : Request) : string :=
  match rq with
  | PostAuthLine _ => "failed to query user: "
  | GetBooks _ => "failed to fetch books: "
  | PostBooks _ => "failed to register book: "
  | PutBooks _ => "failed to update book: "
  | DeleteBooks _ => "failed to delete book: "
  | PostBooksComplete _ => "failed to complete book: "
  | CronCheck _ => "database error: "
  | _ => ""
  end.

Definition failure_log (rq : Request) : option string :=
  match rq with
  | PostAuthLine _ => Some "[ERROR] handleLineAuth query error: "
  | GetBooks _ => Some "[ERROR] handleGetBooks error: "
  | _ => None
  end.

(** ** The claims of the specification that the code does not bear out, as
    they are worded *)

(** The sweep selects exactly the books that are [unread] or [insulted] and
    whose deadline is strictly before [now]. *)
Definition selects_strictly_before (now : Time) (table selected : list Books.row) : Prop :=
  forall r, In r selected <->
    In r table
    /\ (Books.status r = "unread" \/ Books.status r = "insulted")
    /\ Books.deadline r < now.

(** A store failure with cause [cause] is answered by a 500 whose body does
    not show the cause, and the cause is logged. *)
Definition cause_logged_not_surfaced (cause : string)
    (run : Outcome Response * World) : Prop :=
  exists resp,
    fst run = Done resp
    /\ code resp = StatusInternalServerError
    /\ occurs cause (text_of (body resp)) = false
    /\ exists line, In line (printed (trace (snd run))) /\ occurs cause line = true.

(** The field a request is keyed by is missing: the external id of
    auth-bootstrap, the user of list-books, title, author or owner of
    create-book, book id or owner of update-book and delete-book, the book id
    of mark-book-completed. *)
Definition missing_required (rq : Request) : bool :=
  match rq with
  | PostAuthLine (Some req) => String.eqb (LineUserID req) ""
  | GetBooks userId => String.eqb userId ""
  | PostBooks (Some book) =>
      (String.eqb (Title book) "" || String.eqb (Author book) ""
       || String.eqb (UserID book) "")%bool
  | PutBooks (Some book) =>
      (String.eqb (BookID book) "" || String.eqb (UserID book) "")%bool
  | DeleteBooks (Some req) =>
      (String.eqb (del_BookID req) "" || String.eqb (del_UserID req) "")%bool
  | PostBooksComplete (Some req) => String.eqb (cmp_BookID req) ""
  | _ => false
  end.

(** Every handler rejects such a request with 400 before any store write. *)
Definition rejects_missing_fields (now : Time) (rq : Request) (w : World) : Prop :=
  missing_required rq = true ->
  exists resp w',
    serve now rq w = (Done resp, w')
    /\ code resp = StatusBadRequest
    /\ users w' = users w /\ books w' = books w.

(** ** Sample worlds *)

Module Sample.
(** 2024-01-01T00:00:00Z and 2024-06-01T00:00:00Z *)
Definition jan1 : Time := 1704067200 * Second.
Definition jun1 : Time := 1717200000 * Second.

Definition pad (n : nat) : string :=
  let d := Sprintf_d n in
  (String.concat "" (repeat "0" (12 - String.length d)) ++ d)%string.

Definition reader : Users.row :=
  {| Users.id := "3f2b6c1e-8d4a-4e0b-9a57-1c2d3e4f5a6b";
     Users.display_name := "LINE User";
     Users.line_user_id := "U4af4980629";
     Users.created_at := jan1;
     Users.updated_at := jan1 |}.

Definition sicp : Books.row :=
  {| Books.book_id := "9b1deb4d-3b7d-4bad-9bdd-2b0d7b3dcb6d";
     Books.user_id := Users.id reader;
     Books.title := "SICP";
     Books.author := "Abelson";
     Books.deadline := jan1;
     Books.status := "unread";
     Books.insult_level := 3;
     Books.created_at := jan1;
     Books.updated_at := jan1 |}.

(** A world whose outside is given: the store's faults, the push API's
    answers, the random source. *)
Definition world (us : list Users.row) (bs : list Books.row)
    (env : list (string * string)) (faults : nat -> option string)
    (api : nat -> LineReply) (rnd : nat -> nat) : World :=
  {| users := us; books := bs; environ := env;
     store_fault := faults;
     gen_random_uuid := fun n => ("00000000-0000-4000-8000-" ++ pad n)%string;
     NOW := fun _ => jun1;
     line_api := api;
     rand_source := rnd;
     executed := 0; pushed := 0; drawn := 0; trace := [] |}.

Definition token : list (string * string) := [("LINE_CHANNEL_ACCESS_TOKEN", "channel-token")].

(** A store that never fails and a push API that accepts every message. *)
Definition healthy (us : list Users.row) (bs : list Books.row)
    (env : list (string * string)) : World :=
  world us bs env (fun _ => None) (fun _ => Answered 200) (fun _ => 3%nat).

(** The same store failing at its first call. *)
Definition failing (cause : string) (us : list Users.row) (bs : list Books.row) : World :=
  world us bs token (fun n => if Nat.eqb n 0 then Some cause else None)
    (fun _ => Answered 200) (fun _ => 3%nat).

(** A book due half a second after [jun1], and a sweep 0.7 s after [jun1]. *)
Definition due_half_past : Books.row :=
  {| Books.book_id := Books.book_id sicp;
     Books.user_id := Books.user_id sicp;
     Books.title := "SICP";
     Books.author := "Abelson";
     Books.deadline := jun1 + 500000000;
     Books.status := "unread";
     Books.insult_level := 3;
     Books.created_at := jan1;
     Books.updated_at := jan1 |}.

Definition seven_tenths_past : Time := jun1 + 700000000.

Definition request_for (title author owner : string) : Book :=
  {| BookID := ""; UserID := owner; Title := title; Author := author;
     Deadline := jun1; Status := ""; InsultLevel := 3;
     CreatedAt := zeroTime; UpdatedAt := zeroTime |}.
End Sample.

(** ** What the handlers write *)

(** The books of a user, in table order. *)
Definition owned_by (userId : string) (bs : list Books.row) : list Books.row :=
  filter (fun r => String.eqb (Books.user_id r) userId) bs.

(** The row with a given book id and owner. *)
Definition is_book (bookId userId : string) (r : Books.row) : bool :=
  (String.eqb (Books.book_id r) bookId && String.eqb (Books.user_id r) userId)%bool.

(** The row create-book has the store add: key and time stamps from the
    store, the rest from the request. *)
Definition registered (uuid : string) (stamp : Time) (book : Book) : Books.row :=
  {| Books.book_id := uuid;
     Books.user_id := UserID book;
     Books.title := Title book;
     Books.author := Author book;
     Books.deadline := Deadline book;
     Books.status := if String.eqb (Status book) "" then "unread" else Status book;
     Books.insult_level := InsultLevel book;
     Books.created_at := stamp;
     Books.updated_at := stamp |}.

(** A row as update-book rewrites it. *)
Definition updated (now : Time) (book : Book) (r : Books.row) : Books.row :=
  {| Books.book_id := Books.book_id r;
     Books.user_id := Books.user_id r;
     Books.title := Title book;
     Books.author := Author book;
     Books.deadline := Deadline book;
     Books.status := Status book;
     Books.insult_level := InsultLevel book;
     Books.created_at := Books.created_at r;
     Books.updated_at := now |}.

(** The row auth-bootstrap has the store add. *)
Definition enrolled (uuid : string) (stamp : Time) (lineUserID : string) : Users.row :=
  {| Users.id := uuid;
     Users.display_name := "LINE User";
     Users.line_user_id := lineUserID;
     Users.created_at := stamp;
     Users.updated_at := stamp |}.

(** What no route rewrites in a book: its key, its owner, its creation
    time. *)
Definition identity (r : Books.row) : string * string * Time :=
  (Books.book_id r, Books.user_id r, Books.created_at r).

(** The constraints of the schema: the primary keys, the [UNIQUE] external
    id, and the owner of every book among the users. *)
Definition consistent (w : World) : Prop :=
  NoDup (map Users.id (users w))
  /\ NoDup (map Users.line_user_id (users w))
  /\ NoDup (map Books.book_id (books w))
  /\ forall b, In b (books w) -> exists u, In u (users w) /\ Users.id u = Books.user_id b.

(** What a route that answers 200 or 201 may have done to the tables:
    auth-bootstrap adds at most one user the constraints admit; create-book
    adds one book the constraints admit; delete-book keeps some of the rows;
    update-book, mark-book-completed and the sweep rewrite rows in place
    without touching their identity; the other routes write nothing. *)
Definition change (rq : Request) (w w' : World) : Prop :=
  match rq with
  | PostAuthLine _ =>
      books w' = books w
      /\ (users w' = users w
          \/ exists u, users w' = users w ++ [u] /\ violates u w = None)
  | PostBooks _ =>
      users w' = users w
      /\ exists b, books w' = books w ++ [b] /\ violates b w = None
  | DeleteBooks _ =>
      users w' = users w /\ exists p, books w' = filter p (books w)
  | PutBooks _ | PostBooksComplete _ | CronCheck _ =>
      users w' = users w
      /\ Forall2 (fun r r' => identity r' = identity r) (books w) (books w')
  | _ => users w' = users w /\ books w' = books w
  end.

(** ** More sample worlds *)

Module Shelf.
Definition other : Users.row :=
  {| Users.id := "7c9e6679-7425-40de-944b-e07fc1f90ae7";
     Users.display_name := "LINE User";
     Users.line_user_id := "U9d2c7b3a40";
     Users.created_at := Sample.jan1;
     Users.updated_at := Sample.jan1 |}.

Definition taocp : Books.row :=
  {| Books.book_id := "1b9d6bcd-bbfd-4b2d-9b5d-ab8dfbbd4bed";
     Books.user_id := Users.id other;
     Books.title := "TAOCP";
     Books.author := "Knuth";
     Books.deadline := Sample.jun1;
     Books.status := "reading";
     Books.insult_level := 5;
     Books.created_at := Sample.jan1;
     Books.updated_at := Sample.jan1 |}.

(** Two readers with a book each, a store that never fails. *)
Definition two_readers : World :=
  Sample.healthy [Sample.reader; other] [Sample.sicp; taocp] Sample.token.

Definition htdp : Book :=
  {| BookID := "ignored"; UserID := Users.id Sample.reader;
     Title := "HtDP"; Author := "Felleisen";
     Deadline := Sample.jun1; Status := ""; InsultLevel := 0;
     CreatedAt := Sample.jan1; UpdatedAt := Sample.jan1 |}.

(** [sicp] as a struct that holds its keys. *)
Definition sicp_struct : Book :=
  {| BookID := Books.book_id Sample.sicp; UserID := Users.id Sample.reader;
     Title := "SICP"; Author := "Abelson"; Deadline := Sample.jan1;
     Status := "unread"; InsultLevel := 3;
     CreatedAt := Sample.jan1; UpdatedAt := Sample.jan1 |}.
End Shelf.

(** * Properties *)

(** ** Runs *)

Example RFC3339_drops_the_fraction :
  RFC3339 Sample.seven_tenths_past = Sample.jun1.
Proof. reflexivity. Qed.

Example tags_and_keys :
  tag_matches "title" "title" = true
  /\ tag_matches "title" "Title" = true
  /\ tag_matches "bookId" "BOOKID" = true
  /\ tag_matches "bookId" "book_id" = false
  /\ tag_matches "userId" "user_id" = false
  /\ tag_matches "insultLevel" "insult_level" = false.
Proof. repeat split; reflexivity. Qed.

(** Create-book with every field given: 201, and one row added with the
    default status and the key the store made up. *)
Example register_adds_a_row :
  let run := handleRegisterBook
               (Some (Sample.request_for "SICP" "Abelson" (Users.id Sample.reader)))
               (Sample.healthy [Sample.reader] [] Sample.token) in
  fst run = Done {| code := 201; body := Message "Book registered successfully" |}
  /\ books (snd run)
     = [ {| Books.book_id := "00000000-0000-4000-8000-000000000000";
            Books.user_id := Users.id Sample.reader;
            Books.title := "SICP"; Books.author := "Abelson";
            Books.deadline := Sample.jun1; Books.status := "unread";
            Books.insult_level := 3;
            Books.created_at := Sample.jun1; Books.updated_at := Sample.jun1 |} ].
Proof. split; vm_compute; reflexivity. Qed.

(** Create-book for a user the store does not know: the foreign key refuses
    the row. *)
Example register_unknown_owner :
  let run := handleRegisterBook
               (Some (Sample.request_for "SICP" "Abelson" "7c9e6679-7425-40de-944b-e07fc1f90ae7"))
               (Sample.healthy [Sample.reader] [] Sample.token) in
  answers 500 run /\ books (snd run) = [].
Proof. split; [eexists; split|]; vm_compute; reflexivity. Qed.

(** Delete-book by the owner removes the row. *)
Example delete_by_owner :
  books (snd (handleDeleteBook
                (Some {| del_BookID := Books.book_id Sample.sicp;
                         del_UserID := Users.id Sample.reader |})
                (Sample.healthy [Sample.reader] [Sample.sicp] Sample.token)))
  = [].
Proof. vm_compute. reflexivity. Qed.

(** List-books answers with the rows as the store renders them. *)
Example list_books :
  fst (handleGetBooks (Users.id Sample.reader)
         (Sample.healthy [Sample.reader] [Sample.sicp] Sample.token))
  = Done {| code := 200; body := Rows [Books.object Sample.sicp] |}.
Proof. vm_compute. reflexivity. Qed.

(** The loop on a book whose struct holds its keys: the owner is found, the
    push is delivered, the book becomes [insulted] and is counted. *)
Example loop_with_keys :
  let book := {| BookID := Books.book_id Sample.sicp; UserID := Users.id Sample.reader;
                 Title := "SICP"; Author := "Abelson"; Deadline := Sample.jan1;
                 Status := "unread"; InsultLevel := 3;
                 CreatedAt := Sample.jan1; UpdatedAt := Sample.jan1 |} in
  let run := range_books [book] 0
               (Sample.healthy [Sample.reader] [Sample.sicp] Sample.token) in
  fst run = Done 1%nat
  /\ books (snd run) = [Books.set_status "insulted" Sample.sicp]
  /\ pushes (trace (snd run)) = 1%nat.
Proof. repeat split; vm_compute; reflexivity. Qed.

(** ** The store's reading of a query *)

Section StoreFacts.
Context {R : Type} `{Table R}.
Variable fs : list Filter.
Variable p : R -> bool.
Hypothesis scope : forall r, in_scope fs r = Some (p r).

Lemma select_rows_filter (l : list R) : select_rows fs l = Some (filter p l).
Proof.
  induction l as [|r l IH]; simpl; [reflexivity|].
  rewrite scope, IH. reflexivity.
Qed.

Lemma delete_rows_filter (l : list R) :
  delete_rows fs l = Some (filter (fun r => negb (p r)) l).
Proof.
  induction l as [|r l IH]; simpl; [reflexivity|].
  rewrite scope, IH. destruct (p r); reflexivity.
Qed.

Lemma update_rows_map (data : Object) (f : R -> R) (l : list R) :
  (forall r, assign_all data r = Some (f r)) ->
  update_rows data fs l = Some (map (fun r => if p r then f r else r) l).
Proof.
  intros Hf. induction l as [|r l IH]; simpl; [reflexivity|].
  rewrite scope, IH. destruct (p r); [rewrite Hf|]; reflexivity.
Qed.
End StoreFacts.

Lemma render_all_star {R : Type} `{Table R} (l : list R) :
  render_all "*" l = Some (map object l).
Proof.
  induction l as [|r l IH]; simpl; [reflexivity|].
  rewrite IH. reflexivity.
Qed.

(** ** The sweep's selection *)

Lemma in_scope_overdue (now : Time) (r : Books.row) :
  in_scope (overdue now) r = Some (is_overdue now r).
Proof.
  unfold is_overdue. cbn.
  rewrite !orb_false_r, andb_true_r. reflexivity.
Qed.

Lemma RFC3339_le (t : Time) : RFC3339 t <= t.
Proof.
  unfold RFC3339, Second. rewrite Z.mul_comm. apply Z.mul_div_le. lia.
Qed.

Lemma is_overdue_spec (now : Time) (r : Books.row) :
  is_overdue now r = true <->
  (Books.status r = "unread" \/ Books.status r = "insulted")
  /\ Books.deadline r < RFC3339 now.
Proof.
  unfold is_overdue.
  rewrite andb_true_iff, orb_true_iff, !String.eqb_eq, Z.ltb_lt. reflexivity.
Qed.

(** The query of the sweep, when the store answers it. *)
Lemma select_overdue (now : Time) (w : World) :
  store_fault w (executed w) = None ->
  fst (select Books.row "*" (overdue now) w)
  = Done (Ok (map Books.object (filter (is_overdue now) (books w)))).
Proof.
  intros Hok. unfold select. rewrite Hok. cbn [rows books_table].
  rewrite (select_rows_filter (overdue now) (is_overdue now) (in_scope_overdue now)).
  rewrite render_all_star. reflexivity.
Qed.

(** C1 (as amended).  When the store answers the sweep's query, the rows it
    answers with are exactly the books whose status is [unread] or
    [insulted] and whose deadline is strictly before [now] cut down to a
    whole second; so no book that is [completed] or [reading], and no book
    whose deadline is [now] or later, is selected. *)
Theorem sweep_selects_overdue (now : Time) (w : World) :
  store_fault w (executed w) = None ->
  exists selected,
    fst (select Books.row "*" (overdue now) w) = Done (Ok (map Books.object selected))
    /\ (forall r, In r selected <->
          In r (books w)
          /\ (Books.status r = "unread" \/ Books.status r = "insulted")
          /\ Books.deadline r < RFC3339 now)
    /\ (forall r, In r selected ->
          Books.status r <> "completed" /\ Books.status r <> "reading"
          /\ Books.deadline r < now).
Proof.
  intros Hok. exists (filter (is_overdue now) (books w)).
  split; [apply select_overdue; exact Hok|].
  split.
  - intros r. rewrite filter_In, is_overdue_spec. reflexivity.
  - intros r Hr. apply filter_In in Hr. destruct Hr as [_ Hr].
    apply is_overdue_spec in Hr. destruct Hr as [Hs Hd].
    pose proof (RFC3339_le now).
    repeat split; try lia; intros E; rewrite E in Hs; destruct Hs; discriminate.
Qed.

Lemma sweep_selects_overdue_witness :
  let w := Sample.healthy [Sample.reader] [Sample.sicp] Sample.token in
  store_fault w (executed w) = None
  /\ exists selected,
       fst (select Books.row "*" (overdue Sample.jun1) w)
       = Done (Ok (map Books.object selected))
       /\ In Sample.sicp selected.
Proof.
  intros w.
  assert (H : store_fault w (executed w) = None) by reflexivity.
  split; [exact H|].
  destruct (sweep_selects_overdue Sample.jun1 w H) as [selected [Hsel [Hiff _]]].
  exists selected. split; [exact Hsel|].
  apply Hiff. split; [left; reflexivity|].
  split; [left; reflexivity|]. vm_compute. reflexivity.
Defined.

(** C1, the counterexample.  A book due half a second after midnight is
    [unread] and its deadline is strictly before a sweep run 0.7 s after
    midnight, yet the sweep's query answers with no row. *)
Lemma sweep_misses_same_second :
  fst (select Books.row "*" (overdue Sample.seven_tenths_past)
         (Sample.healthy [Sample.reader] [Sample.due_half_past] Sample.token))
  = Done (Ok [])
  /\ ~ selects_strictly_before Sample.seven_tenths_past [Sample.due_half_past] [].
Proof.
  split; [vm_compute; reflexivity|].
  intros Hclaim.
  apply (proj2 (Hclaim Sample.due_half_past)).
  split; [left; reflexivity|].
  split; [left; reflexivity|]. vm_compute. reflexivity.
Qed.

(** ** The cron secret *)

(** C3.  With a cron secret configured and an [Authorization] header that is
    not [Bearer] followed by the secret, the answer is 401 and the world is
    left as it was: no store call, no push, no row changed. *)
Theorem cron_requires_secret (now : Time) (authorization : string) (w : World) :
  lookup_env "CRON_SECRET" (environ w) <> "" ->
  authorization <> ("Bearer " ++ lookup_env "CRON_SECRET" (environ w))%string ->
  handleCheckDeadlines now authorization w
  = (Done {| code := StatusUnauthorized; body := Plain ("Unauthorized" ++ newline) |}, w).
Proof.
  intros Hset Hbad.
  apply String.eqb_neq in Hset. apply String.eqb_neq in Hbad.
  unfold handleCheckDeadlines, bind, Getenv.
  rewrite Hset, Hbad. reflexivity.
Qed.

Lemma cron_requires_secret_witness :
  let w := Sample.healthy [Sample.reader] [Sample.sicp]
             (("CRON_SECRET", "s3cret") :: Sample.token) in
  lookup_env "CRON_SECRET" (environ w) <> ""
  /\ "Bearer guess" <> ("Bearer " ++ lookup_env "CRON_SECRET" (environ w))%string
  /\ handleCheckDeadlines Sample.jun1 "Bearer guess" w
     = (Done {| code := 401; body := Plain ("Unauthorized" ++ newline) |}, w).
Proof.
  intros w.
  assert (H1 : lookup_env "CRON_SECRET" (environ w) <> "") by (vm_compute; discriminate).
  assert (H2 : "Bearer guess" <> ("Bearer " ++ lookup_env "CRON_SECRET" (environ w))%string)
    by (vm_compute; discriminate).
  split; [exact H1|]. split; [exact H2|].
  exact (cron_requires_secret Sample.jun1 "Bearer guess" w H1 H2).
Defined.

(** ** Registering a book *)

(** C4.  A create-book request whose title, author or owner id is empty is
    answered with 400 and the world is left as it was: the insert is not
    attempted. *)
Theorem register_requires_fields (book : Book) (w : World) :
  Title book = "" \/ Author book = "" \/ UserID book = "" ->
  handleRegisterBook (Some book) w
  = (Done {| code := StatusBadRequest; body := Plain ("Missing required fields" ++ newline) |}, w).
Proof.
  intros Hempty. unfold handleRegisterBook.
  replace (String.eqb (Title book) "" || String.eqb (Author book) ""
           || String.eqb (UserID book) "")%bool with true; [reflexivity|].
  symmetry. rewrite !orb_true_iff, !String.eqb_eq. tauto.
Qed.

Lemma register_requires_fields_witness :
  let book := Sample.request_for "SICP" "" (Users.id Sample.reader) in
  let w := Sample.healthy [Sample.reader] [] Sample.token in
  (Title book = "" \/ Author book = "" \/ UserID book = "")
  /\ handleRegisterBook (Some book) w
     = (Done {| code := 400; body := Plain ("Missing required fields" ++ newline) |}, w).
Proof.
  intros book w.
  assert (H : Title book = "" \/ Author book = "" \/ UserID book = "")
    by (right; left; reflexivity).
  split; [exact H|].
  exact (register_requires_fields book w H).
Defined.

(** ** Deleting a book *)

Lemma in_scope_id_owner (x y : string) (r : Books.row) :
  in_scope [postgrest.Eq "book_id" (Text x); postgrest.Eq "user_id" (Text y)] r
  = Some (String.eqb (Books.book_id r) x && String.eqb (Books.user_id r) y)%bool.
Proof. cbn. rewrite andb_true_r. reflexivity. Qed.

Lemma in_scope_id (x : string) (r : Books.row) :
  in_scope [postgrest.Eq "book_id" (Text x)] r = Some (String.eqb (Books.book_id r) x).
Proof. cbn. rewrite andb_true_r. reflexivity. Qed.

(** The books [handleDeleteBook] leaves: with the store failing, all of them;
    else those that are not the book of the request owned by the user of the
    request. *)
Lemma handleDeleteBook_books (req : DeleteRequest) (w : World) :
  books (snd (handleDeleteBook (Some req) w))
  = match store_fault w (executed w) with
    | Some _ => books w
    | None =>
        filter (fun r => negb (String.eqb (Books.book_id r) (del_BookID req)
                               && String.eqb (Books.user_id r) (del_UserID req))) (books w)
    end.
Proof.
  unfold handleDeleteBook, bind, delete.
  destruct (store_fault w (executed w)) as [e|]; [reflexivity|].
  cbn [rows books_table].
  rewrite (delete_rows_filter _ _ (in_scope_id_owner (del_BookID req) (del_UserID req))).
  reflexivity.
Qed.

(** C6.  A book whose owner is not the owner id of the delete request is
    still in the table after the delete, the same in every column, whatever
    the book id of the request and whether or not the store fails. *)
Theorem delete_spares_other_owner (req : DeleteRequest) (w : World) (r : Books.row) :
  In r (books w) ->
  Books.user_id r <> del_UserID req ->
  In r (books (snd (handleDeleteBook (Some req) w))).
Proof.
  intros Hin Howner. rewrite handleDeleteBook_books.
  destruct (store_fault w (executed w)); [exact Hin|].
  apply filter_In. split; [exact Hin|].
  apply String.eqb_neq in Howner. rewrite Howner, andb_false_r. reflexivity.
Qed.

Lemma delete_spares_other_owner_witness :
  let req := {| del_BookID := Books.book_id Sample.sicp;
                del_UserID := "7c9e6679-7425-40de-944b-e07fc1f90ae7" |} in
  let w := Sample.healthy [Sample.reader] [Sample.sicp] Sample.token in
  In Sample.sicp (books w)
  /\ Books.user_id Sample.sicp <> del_UserID req
  /\ In Sample.sicp (books (snd (handleDeleteBook (Some req) w))).
Proof.
  intros req w.
  assert (H1 : In Sample.sicp (books w)) by (left; reflexivity).
  assert (H2 : Books.user_id Sample.sicp <> del_UserID req) by (vm_compute; discriminate).
  split; [exact H1|]. split; [exact H2|].
  exact (delete_spares_other_owner req w Sample.sicp H1 H2).
Defined.

(** ** Marking a book completed *)

Lemma assign_completed (now : Time) (r : Books.row) :
  assign_all [("status", Text "completed"); ("updated_at", Timestamptz now)] r
  = Some (completed now r).
Proof. reflexivity. Qed.

(** C9.  The request of mark-book-completed carries a book id and nothing
    else.  When the store call goes through, every row with that book id is
    set to [completed] (and its [updated_at] to now) whoever owns it, every
    other row is left as it was, and the answer is 200. *)
Theorem complete_is_by_book_id_only (now : Time) (req : CompleteRequest) (w : World) :
  store_fault w (executed w) = None ->
  exists w',
    handleCompleteBook now (Some req) w
    = (Done {| code := StatusOK; body := Message "Book marked as completed" |}, w')
    /\ books w'
       = map (fun r => if String.eqb (Books.book_id r) (cmp_BookID req)
                       then completed now r else r) (books w)
    /\ (forall r, In r (books w) -> Books.book_id r = cmp_BookID req ->
          In (completed now r) (books w')
          /\ Books.status (completed now r) = "completed"
          /\ Books.user_id (completed now r) = Books.user_id r).
Proof.
  intros Hok. unfold handleCompleteBook, bind, update. rewrite Hok.
  cbn [rows books_table].
  rewrite (update_rows_map _ _ (in_scope_id (cmp_BookID req)) _ (completed now) _
             (assign_completed now)).
  eexists. split; [reflexivity|].
  split; [reflexivity|].
  intros r Hin Hid. split; [|split; reflexivity].
  cbn [books executing put_rows books_table with_books].
  apply in_map_iff. exists r. split; [|exact Hin].
  apply String.eqb_eq in Hid. rewrite Hid. reflexivity.
Qed.

Lemma complete_is_by_book_id_only_witness :
  let req := {| cmp_BookID := Books.book_id Sample.sicp |} in
  let w := Sample.healthy [Sample.reader] [Sample.sicp] [] in
  store_fault w (executed w) = None
  /\ books (snd (handleCompleteBook Sample.jun1 (Some req) w))
     = [completed Sample.jun1 Sample.sicp].
Proof.
  intros req w.
  assert (H : store_fault w (executed w) = None) by reflexivity.
  split; [exact H|].
  destruct (complete_is_by_book_id_only Sample.jun1 req w H) as [w' [Hrun [Hbooks _]]].
  rewrite Hrun. cbn [snd]. rewrite Hbooks. reflexivity.
Defined.

(** ** Auth-bootstrap *)

Lemma in_scope_line_user_id (x : string) (u : Users.row) :
  in_scope [postgrest.Eq "line_user_id" (Text x)] u
  = Some (String.eqb (Users.line_user_id u) x).
Proof. cbn. rewrite andb_true_r. reflexivity. Qed.

(** What a call of [handleLineAuth] does to [users], and what it answers:
    it adds one row with the external id, and then answers 200, only when no
    row with that id was there; else it writes nothing, and it answers 200
    only if a row with that id is there. *)
Lemma handleLineAuth_users (req : LineAuthRequest) (w : World) :
  let run := handleLineAuth (Some req) w in
  (users (snd run) = users w
   /\ (answers StatusOK run -> with_line_user_id (LineUserID req) (users w) <> []))
  \/ (with_line_user_id (LineUserID req) (users w) = []
      /\ exists u, users (snd run) = users w ++ [u]
                   /\ Users.line_user_id u = LineUserID req).
Proof.
  unfold handleLineAuth, bind, select.
  destruct (store_fault w (executed w)) as [e|] eqn:Hq.
  { cbn. left. split; [reflexivity|].
    intros [resp [Hrun Hcode]]. injection Hrun as <-. discriminate Hcode. }
  cbn [rows users_table].
  rewrite (select_rows_filter _ _ (in_scope_line_user_id (LineUserID req))).
  rewrite render_all_star.
  fold (with_line_user_id (LineUserID req) (users w)).
  destruct (with_line_user_id (LineUserID req) (users w)) as [|u0 found] eqn:Hfound.
  2:{ cbn. left. split; [reflexivity|discriminate]. }
  cbn [map]. unfold insert.
  cbn [executed executing store_fault gen_random_uuid NOW].
  destruct (store_fault w (S (executed w))) as [e|].
  { cbn. left. split; [reflexivity|].
    intros [resp [Hrun Hcode]]. injection Hrun as <-. discriminate Hcode. }
  cbn.
  match goal with
  | |- context [if ?c then _ else _] => destruct c
  end.
  { cbn. left. split; [reflexivity|].
    intros [resp [Hrun Hcode]]. injection Hrun as <-. discriminate Hcode. }
  match goal with
  | |- context [if ?c then _ else _] => destruct c
  end.
  { cbn. left. split; [reflexivity|].
    intros [resp [Hrun Hcode]]. injection Hrun as <-. discriminate Hcode. }
  cbn. right. split; [reflexivity|].
  eexists. split; reflexivity.
Qed.

Lemma with_line_user_id_app (x : string) (us : list Users.row) (u : Users.row) :
  with_line_user_id x (us ++ [u])
  = with_line_user_id x us ++ (if String.eqb (Users.line_user_id u) x then [u] else []).
Proof. unfold with_line_user_id. rewrite filter_app. reflexivity. Qed.

(** The [UNIQUE] constraint on [line_user_id]: at most one row per id. *)
Lemma unique_line_user_id (x : string) (us : list Users.row) :
  NoDup (map Users.line_user_id us) ->
  (length (with_line_user_id x us) <= 1)%nat.
Proof.
  induction us as [|u us IH]; intros Hnd; simpl; [lia|].
  inversion Hnd as [|? ? Hnotin Hnd']; subst.
  destruct (String.eqb (Users.line_user_id u) x) eqn:E.
  - apply String.eqb_eq in E. subst x. simpl.
    assert (Hnone : with_line_user_id (Users.line_user_id u) us = []).
    { destruct (with_line_user_id (Users.line_user_id u) us) as [|v vs] eqn:F;
        [reflexivity|].
      exfalso. apply Hnotin.
      assert (Hv : In v (with_line_user_id (Users.line_user_id u) us))
        by (rewrite F; left; reflexivity).
      apply filter_In in Hv. destruct Hv as [Hv Hx].
      apply String.eqb_eq in Hx. rewrite <- Hx. apply in_map. exact Hv. }
    rewrite Hnone. simpl. lia.
  - apply IH. exact Hnd'.
Qed.

(** C5.  In a store that holds its [UNIQUE] constraint on the external id,
    after an auth-bootstrap call that answered 200 there is exactly one user
    row with the external id of the call, and a second call with the same
    external id, whatever it is answered, writes no user row: exactly one
    row with that id is there after the two calls. *)
Theorem auth_bootstrap_idempotent (req1 req2 : LineAuthRequest) (w : World) :
  LineUserID req1 = LineUserID req2 ->
  NoDup (map Users.line_user_id (users w)) ->
  let first := handleLineAuth (Some req1) w in
  let second := handleLineAuth (Some req2) (snd first) in
  answers StatusOK first ->
  length (with_line_user_id (LineUserID req1) (users (snd first))) = 1%nat
  /\ users (snd second) = users (snd first)
  /\ length (with_line_user_id (LineUserID req1) (users (snd second))) = 1%nat.
Proof.
  intros Hsame Hunique first second H1.
  pose proof (handleLineAuth_users req1 w) as Hfirst.
  pose proof (handleLineAuth_users req2 (snd first)) as Hsecond.
  cbv zeta in Hfirst, Hsecond. fold first in Hfirst. fold second in Hsecond.
  rewrite <- Hsame in Hsecond.
  assert (Hone : length (with_line_user_id (LineUserID req1) (users (snd first))) = 1%nat).
  { destruct Hfirst as [[Hkept Hthere] | [Hnone [u [Hadded Hid]]]].
    - rewrite Hkept. specialize (Hthere H1).
      pose proof (unique_line_user_id (LineUserID req1) (users w) Hunique).
      destruct (with_line_user_id (LineUserID req1) (users w)); [contradiction|].
      simpl in *. lia.
    - rewrite Hadded, with_line_user_id_app, Hnone.
      apply String.eqb_eq in Hid. rewrite Hid. reflexivity. }
  assert (Hkept : users (snd second) = users (snd first)).
  { destruct Hsecond as [[Hkept _] | [Hnone _]]; [exact Hkept|].
    rewrite Hnone in Hone. discriminate Hone. }
  split; [exact Hone|]. split; [exact Hkept|].
  rewrite Hkept. exact Hone.
Qed.

Lemma auth_bootstrap_idempotent_witness :
  let req := {| LineAccessToken := "access-token"; LineUserID := "U0c1f1d5e77" |} in
  let w := Sample.healthy [Sample.reader] [] [] in
  let first := handleLineAuth (Some req) w in
  let second := handleLineAuth (Some req) (snd first) in
  NoDup (map Users.line_user_id (users w))
  /\ answers StatusOK first
  /\ answers StatusOK second
  /\ length (with_line_user_id "U0c1f1d5e77" (users (snd second))) = 1%nat.
Proof.
  intros req w first second.
  assert (Hu : NoDup (map Users.line_user_id (users w)))
    by (repeat constructor; simpl; tauto).
  assert (H1 : answers StatusOK first) by (eexists; split; vm_compute; reflexivity).
  assert (H2 : answers StatusOK second) by (eexists; split; vm_compute; reflexivity).
  split; [exact Hu|]. split; [exact H1|]. split; [exact H2|].
  exact (proj2 (proj2 (auth_bootstrap_idempotent req req w eq_refl Hu H1))).
Defined.

(** ** Store failures *)

(** C7 (as amended).  For every route, when the request gets as far as the
    handler's first store call and that call fails, the answer is 500 and
    its body is the handler's own prefix followed by the text of the cause;
    no row changes; the cause is logged by auth-bootstrap and list-books and
    by no other handler. *)
Theorem store_failure_answer (now : Time) (rq : Request) (w : World) (cause : string) :
  goes_to_store w rq = true ->
  store_fault w (executed w) = Some cause ->
  exists w',
    serve now rq w
    = (Done {| code := StatusInternalServerError;
               body := Plain (failure_text rq ++ cause ++ newline) |}, w')
    /\ users w' = users w /\ books w' = books w
    /\ printed (trace w')
       = match failure_log rq with
         | Some line => (line ++ cause)%string :: printed (trace w)
         | None => printed (trace w)
         end.
Proof.
  intros Hgo Hfail.
  destruct rq as [ | | | [req| ] | userId | [book| ] | [book| ] | [req| ] | | [req| ]
                 | authorization];
    try discriminate Hgo; cbn [serve].
  - unfold handleLineAuth, bind, select. rewrite Hfail.
    eexists. split; [reflexivity|]. repeat split; reflexivity.
  - cbn in Hgo. unfold handleGetBooks.
    destruct (String.eqb userId ""); [discriminate Hgo|].
    unfold bind, select. rewrite Hfail.
    eexists. split; [reflexivity|]. repeat split; reflexivity.
  - cbn in Hgo. unfold handleRegisterBook.
    destruct (String.eqb (Title book) "" || String.eqb (Author book) ""
              || String.eqb (UserID book) "")%bool; [discriminate Hgo|].
    unfold bind, insert. rewrite Hfail.
    eexists. split; [reflexivity|]. repeat split; reflexivity.
  - unfold handleUpdateBook, bind, update. rewrite Hfail.
    eexists. split; [reflexivity|]. repeat split; reflexivity.
  - unfold handleDeleteBook, bind, delete. rewrite Hfail.
    eexists. split; [reflexivity|]. repeat split; reflexivity.
  - unfold handleCompleteBook, bind, update. rewrite Hfail.
    eexists. split; [reflexivity|]. repeat split; reflexivity.
  - unfold goes_to_store in Hgo. cbv zeta in Hgo. apply negb_true_iff in Hgo.
    unfold handleCheckDeadlines, bind, Getenv. rewrite Hgo.
    unfold select. rewrite Hfail.
    eexists. split; [reflexivity|]. repeat split; reflexivity.
Qed.

Lemma store_failure_answer_witness :
  let rq := PostBooks (Some (Sample.request_for "SICP" "Abelson" (Users.id Sample.reader))) in
  let w := Sample.failing "connection refused" [Sample.reader] [] in
  goes_to_store w rq = true
  /\ store_fault w (executed w) = Some "connection refused"
  /\ exists w',
       serve Sample.jun1 rq w
       = (Done {| code := 500;
                  body := Plain ("failed to register book: connection refused" ++ newline) |},
          w')
       /\ printed (trace w') = [].
Proof.
  intros rq w.
  assert (H1 : goes_to_store w rq = true) by reflexivity.
  assert (H2 : store_fault w (executed w) = Some "connection refused") by reflexivity.
  split; [exact H1|]. split; [exact H2|].
  destruct (store_failure_answer Sample.jun1 rq w "connection refused" H1 H2)
    as [w' [Hrun [_ [_ Hlog]]]].
  exists w'. split; [exact Hrun|exact Hlog].
Defined.

(** C7, the counterexample.  The store refuses the insert of create-book
    with [connection refused]: the body of the 500 shows the cause and
    nothing is logged. *)
Lemma register_failure_surfaces_cause :
  ~ cause_logged_not_surfaced "connection refused"
      (serve Sample.jun1
         (PostBooks (Some (Sample.request_for "SICP" "Abelson" (Users.id Sample.reader))))
         (Sample.failing "connection refused" [Sample.reader] [])).
Proof.
  intros [resp [Hrun [_ [Hhidden _]]]].
  vm_compute in Hrun. injection Hrun as <-.
  vm_compute in Hhidden. discriminate Hhidden.
Qed.

(** The insert of auth-bootstrap failing: 500, the cause in the body and in
    the log. *)
Lemma handleLineAuth_insert_failure (req : LineAuthRequest) (w : World) (cause : string) :
  store_fault w (executed w) = None ->
  with_line_user_id (LineUserID req) (users w) = [] ->
  store_fault w (S (executed w)) = Some cause ->
  exists w',
    handleLineAuth (Some req) w
    = (Done {| code := StatusInternalServerError;
               body := Plain ("failed to create user: " ++ cause ++ newline) |}, w')
    /\ users w' = users w
    /\ printed (trace w')
       = ("[ERROR] handleLineAuth insert error: " ++ cause)%string :: printed (trace w).
Proof.
  intros Hq Hnone Hi.
  unfold handleLineAuth, bind, select. rewrite Hq.
  cbn [rows users_table].
  rewrite (select_rows_filter _ _ (in_scope_line_user_id (LineUserID req))).
  rewrite render_all_star.
  fold (with_line_user_id (LineUserID req) (users w)). rewrite Hnone.
  cbn [map]. unfold insert.
  cbn [executed executing store_fault]. rewrite Hi.
  eexists. split; [reflexivity|]. split; reflexivity.
Qed.

(** ** Presence of the required fields *)

(** C8 (as amended).  List-books and create-book check that their required
    fields are there before any store call: when one is missing the answer
    is 400 and the world is left as it was.  Auth-bootstrap, update-book,
    delete-book and mark-book-completed make no such check: with the field
    they are keyed by missing, the request still goes to the store and the
    answer is not 400. *)
Theorem presence_checks (now : Time) (rq : Request) (w : World) :
  missing_required rq = true ->
  match rq with
  | GetBooks _ | PostBooks _ =>
      exists resp, serve now rq w = (Done resp, w) /\ code resp = StatusBadRequest
  | _ =>
      exists resp,
        fst (serve now rq w) = Done resp
        /\ code resp <> StatusBadRequest
        /\ (executed w < executed (snd (serve now rq w)))%nat
  end.
Proof.
  intros Hmiss.
  destruct rq as [ | | | [req| ] | userId | [book| ] | [book| ] | [req| ] | | [req| ]
                 | authorization];
    try discriminate Hmiss; cbn [serve]; cbn in Hmiss.
  - unfold handleLineAuth, bind, select.
    destruct (store_fault w (executed w)).
    { eexists. split; [reflexivity|]. split; [discriminate|cbn; lia]. }
    cbn [rows users_table].
    rewrite (select_rows_filter _ _ (in_scope_line_user_id (LineUserID req))).
    rewrite render_all_star.
    destruct (filter _ (users w)).
    2:{ eexists. split; [reflexivity|]. split; [discriminate|cbn; lia]. }
    cbn [map]. unfold insert.
    cbn [executed executing store_fault gen_random_uuid NOW].
    destruct (store_fault w (S (executed w))).
    { eexists. split; [reflexivity|]. split; [discriminate|cbn; lia]. }
    cbn.
    repeat match goal with
           | |- context [if ?c then _ else _] => destruct c
           end;
      (eexists; split; [reflexivity|]; split; [discriminate|cbn; lia]).
  - unfold handleGetBooks. rewrite Hmiss.
    eexists. split; reflexivity.
  - unfold handleRegisterBook. rewrite Hmiss.
    eexists. split; reflexivity.
  - unfold handleUpdateBook, bind, update.
    destruct (store_fault w (executed w)).
    { eexists. split; [reflexivity|]. split; [discriminate|cbn; lia]. }
    destruct (update_rows _ _ _);
      (eexists; split; [reflexivity|]; split; [discriminate|cbn; lia]).
  - unfold handleDeleteBook, bind, delete.
    destruct (store_fault w (executed w)).
    { eexists. split; [reflexivity|]. split; [discriminate|cbn; lia]. }
    destruct (delete_rows _ _);
      (eexists; split; [reflexivity|]; split; [discriminate|cbn; lia]).
  - unfold handleCompleteBook, bind, update.
    destruct (store_fault w (executed w)).
    { eexists. split; [reflexivity|]. split; [discriminate|cbn; lia]. }
    destruct (update_rows _ _ _);
      (eexists; split; [reflexivity|]; split; [discriminate|cbn; lia]).
Qed.

Lemma presence_checks_witness :
  let rq := PostBooks (Some (Sample.request_for "" "Abelson" (Users.id Sample.reader))) in
  let w := Sample.healthy [Sample.reader] [] Sample.token in
  missing_required rq = true
  /\ exists resp, serve Sample.jun1 rq w = (Done resp, w) /\ code resp = StatusBadRequest.
Proof.
  intros rq w.
  assert (H : missing_required rq = true) by reflexivity.
  split; [exact H|].
  exact (presence_checks Sample.jun1 rq w H).
Defined.

(** C8, the counterexample.  Auth-bootstrap with an empty external id is
    answered 200 and a user row with the empty id is written. *)
Lemma auth_bootstrap_accepts_empty_id :
  let rq := PostAuthLine (Some {| LineAccessToken := "access-token"; LineUserID := "" |}) in
  let w := Sample.healthy [Sample.reader] [] Sample.token in
  ~ rejects_missing_fields Sample.jun1 rq w
  /\ answers StatusOK (serve Sample.jun1 rq w)
  /\ map Users.line_user_id (users (snd (serve Sample.jun1 rq w)))
     = [Users.line_user_id Sample.reader; ""].
Proof.
  intros rq w. split; [|split].
  - intros Hclaim. destruct (Hclaim eq_refl) as [resp [w' [Hrun [Hcode _]]]].
    vm_compute in Hrun. injection Hrun as <- _.
    vm_compute in Hcode. discriminate Hcode.
  - eexists. split; vm_compute; reflexivity.
  - vm_compute. reflexivity.
Qed.

(** ** The sweep *)

Lemma in_scope_user (x : string) (u : Users.row) :
  in_scope [postgrest.Eq "id" (Text x)] u = Some (String.eqb (Users.id u) x).
Proof. cbn. rewrite andb_true_r. reflexivity. Qed.

Lemma render_all_line_user_id (l : list Users.row) :
  render_all "line_user_id" l
  = Some (map (fun u => [("line_user_id", Text (Users.line_user_id u))]) l).
Proof.
  induction l as [|u l IH]; [reflexivity|].
  cbn [render_all]. rewrite IH. reflexivity.
Qed.

(** The owner lookup of the sweep. *)
Lemma lookup_owner (x : string) (w : World) :
  select Users.row "line_user_id" [postgrest.Eq "id" (Text x)] w
  = (Done match store_fault w (executed w) with
          | Some e => Err e
          | None => Ok (map (fun u => [("line_user_id", Text (Users.line_user_id u))])
                          (with_id x (users w)))
          end,
     executing (Execute "users" (postgrest.Select "line_user_id")
                  [postgrest.Eq "id" (Text x)] (store_fault w (executed w))) w).
Proof.
  unfold select. cbn [rows users_table name].
  rewrite (select_rows_filter _ _ (in_scope_user x)).
  rewrite render_all_line_user_id. fold (with_id x (users w)).
  destruct (store_fault w (executed w)); reflexivity.
Qed.

(** The status update of the sweep leaves the table as it was or writes
    [insulted] into the rows with the book id it is given. *)
Lemma assign_insulted (r : Books.row) :
  assign_all [("status", Text "insulted")] r = Some (Books.set_status "insulted" r).
Proof. reflexivity. Qed.

Lemma mark_insulted (x : string) (w : World) :
  update Books.row [("status", Text "insulted")] [postgrest.Eq "book_id" (Text x)] w
  = match store_fault w (executed w) with
    | Some e =>
        (Done (Err e),
         executing (Execute "books" (postgrest.Update [("status", Text "insulted")])
                      [postgrest.Eq "book_id" (Text x)] (Some e)) w)
    | None =>
        (Done (Ok tt),
         executing (Execute "books" (postgrest.Update [("status", Text "insulted")])
                      [postgrest.Eq "book_id" (Text x)] None)
           (with_books (insulted_by_id x (books w)) w))
    end.
Proof.
  unfold update. cbn [rows books_table name put_rows].
  rewrite (update_rows_map _ _ (in_scope_id x) _ _ _ assign_insulted).
  destruct (store_fault w (executed w)); reflexivity.
Qed.

(** One turn of the loop.  It ends.  Either no push was delivered, the
    counter stands and nothing was written; or one push was delivered, the
    counter went up by one, and the update by the turn's book id was applied
    if the store call went through and dropped if it failed.  [users] is not
    touched, and when no user has the key looked up nothing is pushed. *)
Lemma notify_run (book : Book) (count : nat) (w : World) :
  exists n w',
    notify book count w = (Done n, w')
    /\ ((delivered (trace w') = delivered (trace w)
         /\ n = count /\ books w' = books w)
        \/ (delivered (trace w') = S (delivered (trace w))
            /\ n = S count
            /\ books w' = match store_fault w (S (executed w)) with
                          | Some _ => books w
                          | None => insulted_by_id (BookID book) (books w)
                          end))
    /\ users w' = users w
    /\ (with_id (UserID book) (users w) = [] ->
        n = count /\ books w' = books w /\ pushes (trace w') = pushes (trace w)).
Proof.
  unfold notify, generateInsult, rand_Intn, bind, ret. cbv beta iota.
  rewrite lookup_owner. cbn [store_fault executed drawing users].
  destruct (store_fault w (executed w)) as [e|].
  { do 2 eexists. split; [reflexivity|]. cbn. repeat split; auto. }
  destruct (with_id (UserID book) (users w)) as [|u found].
  { do 2 eexists. split; [reflexivity|]. cbn. repeat split; auto. }
  cbn [map assert_string index String.eqb Ascii.eqb Bool.eqb].
  cbn [assert_string ret].
  unfold sendLineMessage, bind, Getenv, post_push, ret.
  cbn [environ executing drawing].
  destruct (String.eqb (lookup_env "LINE_CHANNEL_ACCESS_TOKEN" (environ w)) "").
  { do 2 eexists. split; [reflexivity|]. cbn. repeat split; auto; discriminate. }
  cbn [line_api pushed executing drawing].
  destruct (line_api w (pushed w)) as [err|c].
  { do 2 eexists. split; [reflexivity|]. cbn. repeat split; auto; discriminate. }
  destruct (Nat.eqb c StatusOK) eqn:Hc.
  2:{ do 2 eexists. split; [reflexivity|]. cbn.
      change (Nat.eqb c 200) with (Nat.eqb c StatusOK). rewrite Hc.
      repeat split; auto; discriminate. }
  rewrite mark_insulted. cbn [store_fault executed pushing executing drawing].
  destruct (store_fault w (S (executed w))).
  - do 2 eexists. split; [reflexivity|]. cbn.
    change (Nat.eqb c 200) with (Nat.eqb c StatusOK). rewrite Hc.
    split; [right; repeat split; reflexivity|].
    split; [reflexivity|discriminate].
  - do 2 eexists. split; [reflexivity|]. cbn.
    change (Nat.eqb c 200) with (Nat.eqb c StatusOK). rewrite Hc.
    split; [right; repeat split; reflexivity|].
    split; [reflexivity|discriminate].
Qed.

Lemma only_insulted_refl (bs : list Books.row) : only_insulted bs bs.
Proof. induction bs; constructor; auto. Qed.

Lemma only_insulted_by_id (x : string) (bs : list Books.row) :
  only_insulted bs (insulted_by_id x bs).
Proof.
  induction bs as [|r bs IH]; simpl; constructor; [|exact IH].
  destruct (String.eqb (Books.book_id r) x); auto.
Qed.

Lemma only_insulted_trans (a b c : list Books.row) :
  only_insulted a b -> only_insulted b c -> only_insulted a c.
Proof.
  intros Hab. revert c. induction Hab as [|r r' a b Hr Hab IH]; intros c Hbc.
  - inversion Hbc. constructor.
  - inversion Hbc as [|? r'' ? c' Hr' Hbc']; subst. constructor; [|apply IH; exact Hbc'].
    destruct Hr as [->| ->], Hr' as [->| ->]; auto.
Qed.

(** The loop: it ends; the counter never goes down, and goes up by the
    deliveries made; [users] is not touched; [books] changes by [insulted]
    only, and not at all when nothing was delivered; and when no book of the
    list has an owner key found in [users], nothing is pushed and nothing is
    written. *)
Lemma range_books_run (books0 : list Book) :
  forall (count : nat) (w : World),
  exists n w',
    range_books books0 count w = (Done n, w')
    /\ (count <= n /\ n + delivered (trace w) = count + delivered (trace w'))%nat
    /\ users w' = users w
    /\ only_insulted (books w) (books w')
    /\ (delivered (trace w') = delivered (trace w) -> books w' = books w)
    /\ (Forall (fun book => with_id (UserID book) (users w) = []) books0 ->
        n = count /\ books w' = books w /\ pushes (trace w') = pushes (trace w)).
Proof.
  induction books0 as [|book rest IH]; intros count w.
  - exists count, w. split; [reflexivity|].
    repeat split; auto using only_insulted_refl.
  - destruct (notify_run book count w) as [n1 [w1 [Hrun1 [Hturn [Husers1 Hnone1]]]]].
    destruct (IH n1 w1)
      as [n [w' [Hrun [[Hle Hcount] [Husers [Hbooks [Hquiet Hnone]]]]]]].
    exists n, w'. split.
    { cbn [range_books]. unfold bind. rewrite Hrun1. exact Hrun. }
    split; [destruct Hturn as [[Hd [Hn _]] | [Hd [Hn _]]]; lia|].
    split; [congruence|]. split.
    { apply only_insulted_trans with (b := books w1); [|exact Hbooks].
      destruct Hturn as [[_ [_ ->]] | [_ [_ ->]]]; [apply only_insulted_refl|].
      destruct (store_fault w (S (executed w)));
        [apply only_insulted_refl | apply only_insulted_by_id]. }
    split.
    { intros Hsame. destruct Hturn as [[Hd [Hn Hb]] | [Hd [Hn _]]]; [|lia].
      rewrite <- Hb. apply Hquiet. lia. }
    intros Hall. inversion Hall as [|? ? Hbook Hrest]; subst.
    destruct (Hnone1 Hbook) as [-> [Hb1 Hp1]].
    rewrite <- Husers1 in Hrest.
    destruct (Hnone Hrest) as [-> [Hb Hp]].
    repeat split; congruence.
Qed.

(** Decoding a row of [books] into a [Book]: the keys [book_id], [user_id],
    [insult_level], [created_at] and [updated_at] meet no tag of the struct
    ([bookId], [userId], [insultLevel], [createdAt], [updatedAt]), so these
    fields keep their zero values. *)
Lemma unmarshal_Book_row (r : Books.row) :
  unmarshal_Book (Books.object r)
  = {| BookID := ""; UserID := "";
       Title := Books.title r; Author := Books.author r;
       Deadline := Books.deadline r; Status := Books.status r;
       InsultLevel := 0; CreatedAt := zeroTime; UpdatedAt := zeroTime |}.
Proof. reflexivity. Qed.

(** The sweep, once past the check of the secret. *)
Lemma handleCheckDeadlines_authorized (now : Time) (authorization : string) (w : World) :
  goes_to_store w (CronCheck authorization) = true ->
  handleCheckDeadlines now authorization w
  = match store_fault w (executed w) with
    | Some e =>
        (Done {| code := StatusInternalServerError;
                 body := Plain ("database error: " ++ e ++ newline) |},
         executing (Execute "books" (postgrest.Select "*") (overdue now) (Some e)) w)
    | None =>
        match range_books
                (map unmarshal_Book
                   (map Books.object (filter (is_overdue now) (books w)))) 0
                (executing (Execute "books" (postgrest.Select "*") (overdue now) None) w)
        with
        | (Done count, w') =>
            (Done {| code := StatusOK;
                     body := Message ("Checked deadlines. Found " ++ Sprintf_d count
                                      ++ " expired books.") |}, w')
        | (Panic msg, w') => (Panic msg, w')
        end
    end.
Proof.
  intros Hgo. unfold goes_to_store in Hgo. cbv zeta in Hgo. apply negb_true_iff in Hgo.
  unfold handleCheckDeadlines, bind, Getenv. rewrite Hgo.
  unfold select. cbn [rows books_table name].
  rewrite (select_rows_filter (overdue now) (is_overdue now) (in_scope_overdue now)).
  rewrite render_all_star.
  destruct (store_fault w (executed w)); reflexivity.
Qed.

Lemma handleCheckDeadlines_unauthorized (now : Time) (authorization : string) (w : World) :
  goes_to_store w (CronCheck authorization) = false ->
  handleCheckDeadlines now authorization w
  = (Done {| code := StatusUnauthorized; body := Plain ("Unauthorized" ++ newline) |}, w).
Proof.
  intros Hgo. unfold goes_to_store in Hgo. cbv zeta in Hgo. apply negb_false_iff in Hgo.
  unfold handleCheckDeadlines, bind, Getenv. rewrite Hgo. reflexivity.
Qed.

(** The sweep writes nothing into [books] but [insulted] into [status], and
    that only when a push was delivered, and nothing at all into [users],
    whatever the outside answers. *)
Lemma sweep_writes_insulted_only (now : Time) (authorization : string) (w : World) :
  exists resp w',
    handleCheckDeadlines now authorization w = (Done resp, w')
    /\ users w' = users w
    /\ only_insulted (books w) (books w')
    /\ (delivered (trace w') = delivered (trace w) -> books w' = books w).
Proof.
  destruct (goes_to_store w (CronCheck authorization)) eqn:Hgo.
  2:{ rewrite (handleCheckDeadlines_unauthorized _ _ _ Hgo).
      do 2 eexists. split; [reflexivity|].
      split; [reflexivity|]. split; [apply only_insulted_refl|reflexivity]. }
  rewrite (handleCheckDeadlines_authorized _ _ _ Hgo).
  destruct (store_fault w (executed w)).
  { do 2 eexists. split; [reflexivity|].
    split; [reflexivity|]. split; [apply only_insulted_refl|reflexivity]. }
  match goal with
  | |- context [range_books ?bs 0%nat ?w1] =>
      destruct (range_books_run bs 0%nat w1)
        as [n [w' [Hrun [_ [Husers [Hbooks [Hquiet _]]]]]]]
  end.
  rewrite Hrun. do 2 eexists. split; [reflexivity|].
  split; [exact Husers|]. split; [exact Hbooks|exact Hquiet].
Qed.

Lemma with_id_none (x : string) (us : list Users.row) :
  (forall u, In u us -> Users.id u <> x) -> with_id x us = [].
Proof.
  intros Hno. induction us as [|u us IH]; [reflexivity|].
  unfold with_id in *. simpl.
  destruct (String.eqb (Users.id u) x) eqn:E.
  - apply String.eqb_eq in E. exfalso. apply (Hno u); [left; reflexivity|exact E].
  - apply IH. intros v Hv. apply Hno. right. exact Hv.
Qed.

(** In a store whose user keys are not empty (they are UUIDs), a sweep never
    finds the owner of a book: every lookup is by the empty key.  Whatever
    the outside answers, it pushes no message, leaves every row as it was,
    and, when it answers 200, reports no book. *)
Lemma sweep_never_finds_owner (now : Time) (authorization : string) (w : World) :
  (forall u, In u (users w) -> Users.id u <> "") ->
  exists resp w',
    handleCheckDeadlines now authorization w = (Done resp, w')
    /\ users w' = users w /\ books w' = books w
    /\ pushes (trace w') = pushes (trace w)
    /\ (code resp = StatusOK ->
        body resp = Message "Checked deadlines. Found 0 expired books.").
Proof.
  intros Hkeys.
  destruct (goes_to_store w (CronCheck authorization)) eqn:Hgo.
  2:{ rewrite (handleCheckDeadlines_unauthorized _ _ _ Hgo).
      do 2 eexists. split; [reflexivity|]. repeat split; auto. discriminate. }
  rewrite (handleCheckDeadlines_authorized _ _ _ Hgo).
  destruct (store_fault w (executed w)).
  { do 2 eexists. split; [reflexivity|]. repeat split; auto. discriminate. }
  match goal with
  | |- context [range_books ?bs 0%nat ?w1] =>
      destruct (range_books_run bs 0%nat w1) as [n [w' [Hrun [_ [Husers [_ [_ Hnone]]]]]]]
  end.
  rewrite Hrun. destruct Hnone as [-> [Hbooks Hpushes]].
  { apply Forall_forall. intros book Hbook.
    apply in_map_iff in Hbook. destruct Hbook as [o [<- Ho]].
    apply in_map_iff in Ho. destruct Ho as [r [<- _]].
    rewrite unmarshal_Book_row. cbn [UserID users executing].
    apply with_id_none. exact Hkeys. }
  do 2 eexists. split; [reflexivity|]. repeat split; auto.
Qed.

(** C10.  The count a sweep reports is the number of pushes the push API
    answered with 200 during the sweep, whatever the store did with the
    status updates; and one turn of the loop whose push is delivered counts
    the book although the update that follows fails: the counter goes up
    and no row changes. *)
Theorem sweep_counts_deliveries :
  (forall (now : Time) (authorization : string) (w : World),
    exists resp w',
      handleCheckDeadlines now authorization w = (Done resp, w')
      /\ (code resp = StatusOK ->
          body resp
          = Message ("Checked deadlines. Found "
                     ++ Sprintf_d (delivered (trace w') - delivered (trace w))
                     ++ " expired books.")))
  /\ (forall (book : Book) (count : nat) (w : World)
        (u : Users.row) (found : list Users.row) (cause : string),
       store_fault w (executed w) = None ->
       with_id (UserID book) (users w) = u :: found ->
       lookup_env "LINE_CHANNEL_ACCESS_TOKEN" (environ w) <> "" ->
       line_api w (pushed w) = Answered StatusOK ->
       store_fault w (S (executed w)) = Some cause ->
       exists w',
         notify book count w = (Done (S count), w')
         /\ books w' = books w
         /\ delivered (trace w') = S (delivered (trace w))).
Proof.
  split.
  - intros now authorization w.
    destruct (goes_to_store w (CronCheck authorization)) eqn:Hgo.
    2:{ rewrite (handleCheckDeadlines_unauthorized _ _ _ Hgo).
        do 2 eexists. split; [reflexivity|]. discriminate. }
    rewrite (handleCheckDeadlines_authorized _ _ _ Hgo).
    destruct (store_fault w (executed w)).
    { do 2 eexists. split; [reflexivity|]. discriminate. }
    match goal with
    | |- context [range_books ?bs 0%nat ?w1] =>
        destruct (range_books_run bs 0%nat w1) as [n [w' [Hrun [[_ Hcount] _]]]]
    end.
    rewrite Hrun. exists {| code := StatusOK;
                            body := Message ("Checked deadlines. Found " ++ Sprintf_d n
                                             ++ " expired books.") |}, w'.
    split; [reflexivity|]. intros _. cbn [body].
    cbn [trace executing delivered] in Hcount.
    replace (delivered (trace w') - delivered (trace w))%nat with n by lia.
    reflexivity.
  - intros book count w u found cause Hlookup Hfound Htoken Hreply Hupdate.
    unfold notify, generateInsult, rand_Intn, bind, ret. cbv beta iota.
    rewrite lookup_owner. cbn [store_fault executed drawing users].
    rewrite Hlookup, Hfound.
    cbn [map assert_string index String.eqb Ascii.eqb Bool.eqb].
    cbn [assert_string ret].
    unfold sendLineMessage, bind, Getenv, post_push, ret.
    cbn [environ executing drawing].
    apply String.eqb_neq in Htoken. rewrite Htoken.
    cbn [line_api pushed executing drawing]. rewrite Hreply.
    rewrite Nat.eqb_refl.
    rewrite mark_insulted. cbn [store_fault executed pushing executing drawing].
    rewrite Hupdate.
    eexists. split; [reflexivity|]. split; reflexivity.
Qed.

Lemma sweep_counts_deliveries_witness :
  let book := {| BookID := Books.book_id Sample.sicp; UserID := Users.id Sample.reader;
                 Title := "SICP"; Author := "Abelson"; Deadline := Sample.jan1;
                 Status := "unread"; InsultLevel := 3;
                 CreatedAt := Sample.jan1; UpdatedAt := Sample.jan1 |} in
  let w := Sample.world [Sample.reader] [Sample.sicp] Sample.token
             (fun n => if Nat.eqb n 1 then Some "connection reset" else None)
             (fun _ => Answered StatusOK) (fun _ => 3%nat) in
  (store_fault w (executed w) = None
   /\ with_id (UserID book) (users w) = [Sample.reader]
   /\ lookup_env "LINE_CHANNEL_ACCESS_TOKEN" (environ w) <> ""
   /\ line_api w (pushed w) = Answered StatusOK
   /\ store_fault w (S (executed w)) = Some "connection reset")
  /\ (exists w',
        notify book 0 w = (Done 1%nat, w')
        /\ books w' = [Sample.sicp]
        /\ delivered (trace w') = 1%nat)
  /\ (exists resp w',
        handleCheckDeadlines Sample.jun1 "" w = (Done resp, w')
        /\ code resp = StatusOK
        /\ body resp
           = Message ("Checked deadlines. Found "
                      ++ Sprintf_d (delivered (trace w') - delivered (trace w))
                      ++ " expired books.")).
Proof.
  intros book w.
  assert (H1 : store_fault w (executed w) = None) by reflexivity.
  assert (H2 : with_id (UserID book) (users w) = [Sample.reader]) by reflexivity.
  assert (H3 : lookup_env "LINE_CHANNEL_ACCESS_TOKEN" (environ w) <> "")
    by (vm_compute; discriminate).
  assert (H4 : line_api w (pushed w) = Answered StatusOK) by reflexivity.
  assert (H5 : store_fault w (S (executed w)) = Some "connection reset") by reflexivity.
  split; [repeat split; assumption|].
  split.
  - exact (proj2 sweep_counts_deliveries book 0%nat w Sample.reader [] "connection reset"
             H1 H2 H3 H4 H5).
  - destruct (proj1 sweep_counts_deliveries Sample.jun1 "" w) as [resp [w' [Hrun Hbody]]].
    assert (Hcode : code resp = StatusOK).
    { change resp with
        (match Done resp with Done r => r | Panic _ => resp end).
      change (Done resp) with (fst (Done resp, w')). rewrite <- Hrun.
      vm_compute. reflexivity. }
    exists resp, w'. split; [exact Hrun|]. split; [exact Hcode|exact (Hbody Hcode)].
Defined.

(** What a sweep can write.  Over a whole sweep every row of [books] keeps
    its place and is left as it was or differs in [status] only, which is
    then [insulted]; [users] is not written; and no row changes in a sweep
    that delivered no push.  In one turn of the loop nothing is written
    unless the push of the turn was delivered; after a delivered push the
    rows with the turn's book id are set to [insulted] when the update call
    goes through, and no row changes when it fails. *)
Theorem sweep_status_writes :
  (forall (now : Time) (authorization : string) (w : World),
    exists resp w',
      handleCheckDeadlines now authorization w = (Done resp, w')
      /\ users w' = users w
      /\ only_insulted (books w) (books w')
      /\ (delivered (trace w') = delivered (trace w) -> books w' = books w))
  /\ (forall (book : Book) (count : nat) (w : World),
       exists n w',
         notify book count w = (Done n, w')
         /\ ((delivered (trace w') = delivered (trace w) /\ books w' = books w)
             \/ (delivered (trace w') = S (delivered (trace w))
                 /\ books w' = match store_fault w (S (executed w)) with
                               | Some _ => books w
                               | None => insulted_by_id (BookID book) (books w)
                               end))).
Proof.
  split.
  - exact sweep_writes_insulted_only.
  - intros book count w.
    destruct (notify_run book count w) as [n [w' [Hrun [Hturn _]]]].
    exists n, w'. split; [exact Hrun|].
    destruct Hturn as [[Hd [_ Hb]] | [Hd [_ Hb]]]; [left|right]; split; assumption.
Qed.

Lemma sweep_status_writes_witness :
  let w := Sample.world [Sample.reader] [Sample.sicp] Sample.token
             (fun _ => None) (fun _ => Answered 503) (fun _ => 1%nat) in
  exists resp w',
    handleCheckDeadlines Sample.jun1 "" w = (Done resp, w')
    /\ delivered (trace w') = delivered (trace w)
    /\ books w' = [Sample.sicp].
Proof.
  intros w.
  destruct (proj1 sweep_status_writes Sample.jun1 "" w)
    as [resp [w' [Hrun [_ [_ Hquiet]]]]].
  exists resp, w'. split; [exact Hrun|].
  assert (Hd : delivered (trace w') = delivered (trace w)).
  { change w' with (snd (Done resp, w')). rewrite <- Hrun. vm_compute. reflexivity. }
  split; [exact Hd|]. exact (Hquiet Hd).
Defined.


(** * Further properties of the handlers *)

(** ** List-books *)

Lemma in_scope_owner (x : string) (r : Books.row) :
  in_scope [postgrest.Eq "user_id" (Text x)] r = Some (String.eqb (Books.user_id r) x).
Proof. cbn. rewrite andb_true_r. reflexivity. Qed.

(** X1.  List-books with a user id, when the store answers: 200 with the
    rows of [books] owned by that user, each as the store renders it, in
    table order, and no row of another user; nothing is written. *)
Theorem list_books_of_user (userId : string) (w : World) :
  userId <> "" ->
  store_fault w (executed w) = None ->
  exists w',
    handleGetBooks userId w
    = (Done {| code := StatusOK;
               body := Rows (map Books.object (owned_by userId (books w))) |}, w')
    /\ users w' = users w /\ books w' = books w
    /\ forall r, In r (owned_by userId (books w)) <->
                 In r (books w) /\ Books.user_id r = userId.
Proof.
  intros Hid Hok. apply String.eqb_neq in Hid.
  unfold handleGetBooks. rewrite Hid.
  unfold bind, select. rewrite Hok. cbn [rows books_table].
  rewrite (select_rows_filter _ _ (in_scope_owner userId)), render_all_star.
  eexists. split; [reflexivity|]. split; [reflexivity|]. split; [reflexivity|].
  intros r. unfold owned_by. rewrite filter_In, String.eqb_eq. reflexivity.
Qed.

Lemma list_books_of_user_witness :
  let userId := Users.id Sample.reader in
  userId <> ""
  /\ store_fault Shelf.two_readers (executed Shelf.two_readers) = None
  /\ fst (handleGetBooks userId Shelf.two_readers)
     = Done {| code := 200; body := Rows [Books.object Sample.sicp] |}.
Proof.
  intros userId.
  assert (H1 : userId <> "") by (vm_compute; discriminate).
  assert (H2 : store_fault Shelf.two_readers (executed Shelf.two_readers) = None)
    by reflexivity.
  split; [exact H1|]. split; [exact H2|].
  destruct (list_books_of_user userId Shelf.two_readers H1 H2) as [w' [Hrun _]].
  rewrite Hrun. reflexivity.
Defined.

(** ** Create-book *)

Lemma existsb_false {A : Type} (p : A -> bool) (l : list A) :
  (forall a, In a l -> p a = false) -> existsb p l = false.
Proof.
  intros Hp. induction l as [|a l IH]; [reflexivity|].
  simpl. rewrite (Hp a (or_introl eq_refl)). apply IH.
  intros b Hb. apply Hp. right. exact Hb.
Qed.

Lemma assign_registered (uuid : string) (stamp : Time) (book : Book) :
  assign_all
    [ ("user_id", Text (UserID book));
      ("title", Text (Title book));
      ("author", Text (Author book));
      ("deadline", Timestamptz (Deadline book));
      ("status", Text (if String.eqb (Status book) "" then "unread" else Status book));
      ("insult_level", Integer (InsultLevel book)) ]
    (Books.blank uuid stamp)
  = Some (registered uuid stamp book).
Proof. reflexivity. Qed.

(** The run of create-book once the request has its three fields and the
    store takes the call. *)
Lemma handleRegisterBook_run (book : Book) (w : World) :
  Title book <> "" -> Author book <> "" -> UserID book <> "" ->
  store_fault w (executed w) = None ->
  let b := registered (gen_random_uuid w (executed w)) (NOW w (executed w)) book in
  handleRegisterBook (Some book) w
  = match violates b w with
    | Some e =>
        (Done {| code := StatusInternalServerError;
                 body := Plain ("failed to register book: " ++ e ++ newline) |},
         executing (Execute "books"
                      (postgrest.Insert
                         [ ("user_id", Text (UserID book));
                           ("title", Text (Title book));
                           ("author", Text (Author book));
                           ("deadline", Timestamptz (Deadline book));
                           ("status", Text (Books.status b));
                           ("insult_level", Integer (InsultLevel book)) ])
                      [] (Some e)) w)
    | None =>
        (Done {| code := StatusCreated; body := Message "Book registered successfully" |},
         executing (Execute "books"
                      (postgrest.Insert
                         [ ("user_id", Text (UserID book));
                           ("title", Text (Title book));
                           ("author", Text (Author book));
                           ("deadline", Timestamptz (Deadline book));
                           ("status", Text (Books.status b));
                           ("insult_level", Integer (InsultLevel book)) ])
                      [] None)
           (with_books (books w ++ [b]) w))
    end.
Proof.
  intros Ht Ha Hu Hok b.
  apply String.eqb_neq in Ht. apply String.eqb_neq in Ha. apply String.eqb_neq in Hu.
  unfold handleRegisterBook. rewrite Ht, Ha, Hu. cbn [orb].
  unfold bind, insert. rewrite Hok.
  cbn [not_null books_table Books.not_null forallb given existsb fst
       String.eqb Ascii.eqb Bool.eqb orb andb].
  cbn [blank books_table assign].
  rewrite (assign_registered (gen_random_uuid w (executed w)) (NOW w (executed w)) book).
  fold b. destruct (violates b w); reflexivity.
Qed.

Lemma books_violates_none (b : Books.row) (w : World) :
  (forall r, In r (books w) -> Books.book_id r <> Books.book_id b) ->
  (exists u, In u (users w) /\ Users.id u = Books.user_id b) ->
  violates b w = None.
Proof.
  intros Hfresh [u [Hu Hid]]. cbn [violates books_table].
  rewrite existsb_false.
  2:{ intros r Hr. apply String.eqb_neq. apply Hfresh. exact Hr. }
  replace (existsb (fun u0 => String.eqb (Users.id u0) (Books.user_id b)) (users w))
    with true; [reflexivity|].
  symmetry. apply existsb_exists. exists u. split; [exact Hu|].
  apply String.eqb_eq. exact Hid.
Qed.

(** X2.  Create-book with title, author and owner given, for an owner the
    store knows, when the store takes the call and the key it makes up is
    new: 201, and one row is added at the end of [books]; no other row
    changes.  The new row has the store's key and time stamps; owner, title,
    author and deadline of the request; the status of the request, or
    [unread] when the request has none; and the insult level of the request
    as it is (0 when the request has none: the default of the schema is not
    used).  The book id and the time stamps of the request are not read. *)
Theorem register_adds_one_row (book : Book) (w : World) :
  Title book <> "" -> Author book <> "" -> UserID book <> "" ->
  store_fault w (executed w) = None ->
  (exists u, In u (users w) /\ Users.id u = UserID book) ->
  (forall r, In r (books w) -> Books.book_id r <> gen_random_uuid w (executed w)) ->
  exists w',
    handleRegisterBook (Some book) w
    = (Done {| code := StatusCreated; body := Message "Book registered successfully" |}, w')
    /\ users w' = users w
    /\ books w'
       = books w ++ [registered (gen_random_uuid w (executed w)) (NOW w (executed w)) book].
Proof.
  intros Ht Ha Hu Hok Howner Hfresh.
  rewrite (handleRegisterBook_run book w Ht Ha Hu Hok). cbv zeta.
  rewrite (books_violates_none
             (registered (gen_random_uuid w (executed w)) (NOW w (executed w)) book)
             w Hfresh Howner).
  eexists. split; [reflexivity|]. split; reflexivity.
Qed.

Lemma register_adds_one_row_witness :
  let w := Shelf.two_readers in
  (Title Shelf.htdp <> "" /\ Author Shelf.htdp <> "" /\ UserID Shelf.htdp <> "")
  /\ store_fault w (executed w) = None
  /\ (exists u, In u (users w) /\ Users.id u = UserID Shelf.htdp)
  /\ (forall r, In r (books w) -> Books.book_id r <> gen_random_uuid w (executed w))
  /\ books (snd (handleRegisterBook (Some Shelf.htdp) w))
     = [ Sample.sicp; Shelf.taocp;
         {| Books.book_id := "00000000-0000-4000-8000-000000000000";
            Books.user_id := Users.id Sample.reader;
            Books.title := "HtDP"; Books.author := "Felleisen";
            Books.deadline := Sample.jun1; Books.status := "unread";
            Books.insult_level := 0;
            Books.created_at := Sample.jun1; Books.updated_at := Sample.jun1 |} ].
Proof.
  intros w.
  assert (Ht : Title Shelf.htdp <> "") by discriminate.
  assert (Ha : Author Shelf.htdp <> "") by discriminate.
  assert (Hu : UserID Shelf.htdp <> "") by (vm_compute; discriminate).
  assert (Hok : store_fault w (executed w) = None) by reflexivity.
  assert (Howner : exists u, In u (users w) /\ Users.id u = UserID Shelf.htdp)
    by (exists Sample.reader; split; [left; reflexivity|reflexivity]).
  assert (Hfresh : forall r, In r (books w) ->
                     Books.book_id r <> gen_random_uuid w (executed w)).
  { intros r [<-|[<-|[]]]; vm_compute; discriminate. }
  split; [repeat split; assumption|]. split; [exact Hok|].
  split; [exact Howner|]. split; [exact Hfresh|].
  destruct (register_adds_one_row Shelf.htdp w Ht Ha Hu Hok Howner Hfresh)
    as [w' [Hrun [_ Hbooks]]].
  rewrite Hrun. cbn [snd]. rewrite Hbooks. vm_compute. reflexivity.
Defined.



(** X4.  Create-book followed by list-books for the owner, both taken by the
    store: the list is the owner's books from before, followed by the new
    book. *)
Theorem register_then_list (book : Book) (w : World) :
  Title book <> "" -> Author book <> "" -> UserID book <> "" ->
  store_fault w (executed w) = None ->
  store_fault w (S (executed w)) = None ->
  (exists u, In u (users w) /\ Users.id u = UserID book) ->
  (forall r, In r (books w) -> Books.book_id r <> gen_random_uuid w (executed w)) ->
  fst (handleGetBooks (UserID book) (snd (handleRegisterBook (Some book) w)))
  = Done {| code := StatusOK;
            body := Rows (map Books.object (owned_by (UserID book) (books w))
                          ++ [Books.object (registered (gen_random_uuid w (executed w))
                                              (NOW w (executed w)) book)]) |}.
Proof.
  intros Ht Ha Hu Hok Hok' Howner Hfresh.
  rewrite (handleRegisterBook_run book w Ht Ha Hu Hok). cbv zeta.
  rewrite (books_violates_none
             (registered (gen_random_uuid w (executed w)) (NOW w (executed w)) book)
             w Hfresh Howner). cbn [snd].
  pose proof Hu as Hu'. apply String.eqb_neq in Hu'.
  unfold handleGetBooks. rewrite Hu'.
  unfold bind, select. cbn [store_fault executed executing with_books]. rewrite Hok'.
  cbn [rows books_table books executing with_books].
  rewrite (select_rows_filter _ _ (in_scope_owner (UserID book))), render_all_star.
  rewrite filter_app, map_app. cbn [filter Books.user_id registered].
  rewrite String.eqb_refl. reflexivity.
Qed.

Lemma register_then_list_witness :
  let w := Shelf.two_readers in
  (Title Shelf.htdp <> "" /\ Author Shelf.htdp <> "" /\ UserID Shelf.htdp <> "")
  /\ (store_fault w (executed w) = None /\ store_fault w (S (executed w)) = None)
  /\ (exists u, In u (users w) /\ Users.id u = UserID Shelf.htdp)
  /\ (forall r, In r (books w) -> Books.book_id r <> gen_random_uuid w (executed w))
  /\ exists listed,
       fst (handleGetBooks (UserID Shelf.htdp)
              (snd (handleRegisterBook (Some Shelf.htdp) w)))
       = Done {| code := 200; body := Rows listed |}
       /\ map (index "title") listed = [Some (Text "SICP"); Some (Text "HtDP")].
Proof.
  intros w.
  assert (Ht : Title Shelf.htdp <> "") by discriminate.
  assert (Ha : Author Shelf.htdp <> "") by discriminate.
  assert (Hu : UserID Shelf.htdp <> "") by (vm_compute; discriminate).
  assert (Hok : store_fault w (executed w) = None) by reflexivity.
  assert (Hok' : store_fault w (S (executed w)) = None) by reflexivity.
  assert (Howner : exists u, In u (users w) /\ Users.id u = UserID Shelf.htdp)
    by (exists Sample.reader; split; [left; reflexivity|reflexivity]).
  assert (Hfresh : forall r, In r (books w) ->
                     Books.book_id r <> gen_random_uuid w (executed w)).
  { intros r [<-|[<-|[]]]; vm_compute; discriminate. }
  split; [repeat split; assumption|]. split; [split; assumption|].
  split; [exact Howner|]. split; [exact Hfresh|].
  eexists. split.
  - exact (register_then_list Shelf.htdp w Ht Ha Hu Hok Hok' Howner Hfresh).
  - vm_compute. reflexivity.
Defined.

(** ** Update-book *)

Lemma assign_updated (now : Time) (book : Book) (r : Books.row) :
  assign_all
    [ ("title", Text (Title book));
      ("author", Text (Author book));
      ("deadline", Timestamptz (Deadline book));
      ("status", Text (Status book));
      ("insult_level", Integer (InsultLevel book));
      ("updated_at", Timestamptz now) ] r
  = Some (updated now book r).
Proof. reflexivity. Qed.

(** X5.  Update-book, when the store takes the call: 200, and the rows with
    the book id and the owner of the request get title, author, deadline,
    status and insult level of the request and [now] as [updated_at]; their
    key, owner and creation time stay, every other row stays as it was, and
    no row is added or removed.  The answer is 200 also when no row has that
    book id and owner. *)
Theorem update_rewrites_own_book (now : Time) (book : Book) (w : World) :
  store_fault w (executed w) = None ->
  exists w',
    handleUpdateBook now (Some book) w
    = (Done {| code := StatusOK; body := Message "Book updated successfully" |}, w')
    /\ users w' = users w
    /\ books w'
       = map (fun r => if is_book (BookID book) (UserID book) r
                       then updated now book r else r) (books w)
    /\ map identity (books w') = map identity (books w).
Proof.
  intros Hok. unfold handleUpdateBook, bind, update. rewrite Hok.
  cbn [rows books_table].
  rewrite (update_rows_map _ _ (in_scope_id_owner (BookID book) (UserID book))
             _ (updated now book) _ (assign_updated now book)).
  eexists. split; [reflexivity|]. split; [reflexivity|]. split; [reflexivity|].
  cbn [books executing put_rows books_table with_books].
  rewrite map_map. apply map_ext. intros r.
  destruct (String.eqb (Books.book_id r) (BookID book)
            && String.eqb (Books.user_id r) (UserID book))%bool; reflexivity.
Qed.

Lemma update_rewrites_own_book_witness :
  let book := {| BookID := Books.book_id Sample.sicp; UserID := Users.id Sample.reader;
                 Title := "SICP, 2nd ed."; Author := "Abelson, Sussman";
                 Deadline := Sample.jun1; Status := "reading"; InsultLevel := 1;
                 CreatedAt := zeroTime; UpdatedAt := zeroTime |} in
  let w := Shelf.two_readers in
  store_fault w (executed w) = None
  /\ books (snd (handleUpdateBook Sample.jun1 (Some book) w))
     = [ updated Sample.jun1 book Sample.sicp; Shelf.taocp ].
Proof.
  intros book w.
  assert (Hok : store_fault w (executed w) = None) by reflexivity.
  split; [exact Hok|].
  destruct (update_rewrites_own_book Sample.jun1 book w Hok) as [w' [Hrun [_ [Hbooks _]]]].
  rewrite Hrun. cbn [snd]. rewrite Hbooks. vm_compute. reflexivity.
Defined.

(** X6.  Update-book gives no default to the status: a request without
    status leaves the rows it rewrites with the empty status, and a row with
    the empty status is in no sweep's selection. *)
Theorem update_without_status (now : Time) (book : Book) (w : World) (r : Books.row) :
  Status book = "" ->
  store_fault w (executed w) = None ->
  In r (books w) ->
  Books.book_id r = BookID book ->
  Books.user_id r = UserID book ->
  In (updated now book r) (books (snd (handleUpdateBook now (Some book) w)))
  /\ Books.status (updated now book r) = ""
  /\ forall later, in_scope (overdue later) (updated now book r) = Some false.
Proof.
  intros Hstatus Hok Hin Hid Howner.
  unfold handleUpdateBook, bind, update. rewrite Hok.
  cbn [rows books_table].
  rewrite (update_rows_map _ _ (in_scope_id_owner (BookID book) (UserID book))
             _ (updated now book) _ (assign_updated now book)).
  cbn [snd books executing put_rows books_table with_books].
  split.
  { apply in_map_iff. exists r. split; [|exact Hin].
    apply String.eqb_eq in Hid. apply String.eqb_eq in Howner.
    rewrite Hid, Howner. reflexivity. }
  split; [exact Hstatus|].
  intros later. rewrite in_scope_overdue. unfold is_overdue.
  cbn [Books.status updated]. rewrite Hstatus. reflexivity.
Qed.

Lemma update_without_status_witness :
  let book := {| BookID := Books.book_id Sample.sicp; UserID := Users.id Sample.reader;
                 Title := "SICP"; Author := "Abelson";
                 Deadline := Sample.jan1; Status := ""; InsultLevel := 3;
                 CreatedAt := zeroTime; UpdatedAt := zeroTime |} in
  let w := Shelf.two_readers in
  Status book = ""
  /\ store_fault w (executed w) = None
  /\ In Sample.sicp (books w)
  /\ Books.book_id Sample.sicp = BookID book
  /\ Books.user_id Sample.sicp = UserID book
  /\ map Books.status (books (snd (handleUpdateBook Sample.jun1 (Some book) w)))
     = [""; "reading"]
  /\ in_scope (overdue Sample.jun1) (updated Sample.jun1 book Sample.sicp) = Some false.
Proof.
  intros book w.
  assert (H1 : Status book = "") by reflexivity.
  assert (H2 : store_fault w (executed w) = None) by reflexivity.
  assert (H3 : In Sample.sicp (books w)) by (left; reflexivity).
  assert (H4 : Books.book_id Sample.sicp = BookID book) by reflexivity.
  assert (H5 : Books.user_id Sample.sicp = UserID book) by reflexivity.
  split; [exact H1|]. split; [exact H2|]. split; [exact H3|].
  split; [exact H4|]. split; [exact H5|].
  split; [vm_compute; reflexivity|].
  exact (proj2 (proj2 (update_without_status Sample.jun1 book w Sample.sicp H1 H2 H3 H4 H5))
           Sample.jun1).
Defined.

(** ** Delete-book *)

(** X7.  Delete-book, when the store takes the call: 200, and [books] loses
    exactly the rows that have both the book id and the owner of the
    request; the rows left keep their order and [users] is not written.  The
    answer is 200 also when no row is removed. *)
Theorem delete_removes_own_book (req : DeleteRequest) (w : World) :
  store_fault w (executed w) = None ->
  exists w',
    handleDeleteBook (Some req) w
    = (Done {| code := StatusOK; body := Message "Book deleted successfully" |}, w')
    /\ users w' = users w
    /\ books w'
       = filter (fun r => negb (is_book (del_BookID req) (del_UserID req) r)) (books w)
    /\ forall r, In r (books w') <->
         In r (books w)
         /\ ~ (Books.book_id r = del_BookID req /\ Books.user_id r = del_UserID req).
Proof.
  intros Hok. unfold handleDeleteBook, bind, delete. rewrite Hok.
  cbn [rows books_table].
  rewrite (delete_rows_filter _ _ (in_scope_id_owner (del_BookID req) (del_UserID req))).
  eexists. split; [reflexivity|]. split; [reflexivity|]. split; [reflexivity|].
  intros r. cbn [books executing put_rows books_table with_books].
  rewrite filter_In, negb_true_iff, andb_false_iff, !String.eqb_neq.
  split; intros [Hin Hnot]; (split; [exact Hin|]).
  - intros [Hid Howner]. destruct Hnot; contradiction.
  - destruct (String.eqb_spec (Books.book_id r) (del_BookID req)) as [Hid|Hid];
      [|left; exact Hid].
    right. intros Howner. apply Hnot. split; assumption.
Qed.

Lemma delete_removes_own_book_witness :
  let req := {| del_BookID := Books.book_id Sample.sicp;
                del_UserID := Users.id Sample.reader |} in
  let w := Shelf.two_readers in
  store_fault w (executed w) = None
  /\ books (snd (handleDeleteBook (Some req) w)) = [Shelf.taocp].
Proof.
  intros req w.
  assert (Hok : store_fault w (executed w) = None) by reflexivity.
  split; [exact Hok|].
  destruct (delete_removes_own_book req w Hok) as [w' [Hrun [_ [Hbooks _]]]].
  rewrite Hrun. cbn [snd]. rewrite Hbooks. vm_compute. reflexivity.
Defined.

Lemma filter_all {A : Type} (p : A -> bool) (l : list A) :
  (forall a, In a l -> p a = true) -> filter p l = l.
Proof.
  intros Hp. induction l as [|a l IH]; [reflexivity|].
  simpl. rewrite (Hp a (or_introl eq_refl)). f_equal. apply IH.
  intros b Hb. apply Hp. right. exact Hb.
Qed.

(** X8.  Create-book followed by delete-book with the key the store gave the
    new book and the owner of the request, both taken by the store: [books]
    is back to what it was before the two calls. *)
Theorem register_then_delete (book : Book) (w : World) :
  Title book <> "" -> Author book <> "" -> UserID book <> "" ->
  store_fault w (executed w) = None ->
  store_fault w (S (executed w)) = None ->
  (exists u, In u (users w) /\ Users.id u = UserID book) ->
  (forall r, In r (books w) -> Books.book_id r <> gen_random_uuid w (executed w)) ->
  let req := {| del_BookID := gen_random_uuid w (executed w); del_UserID := UserID book |} in
  books (snd (handleDeleteBook (Some req) (snd (handleRegisterBook (Some book) w))))
  = books w.
Proof.
  intros Ht Ha Hu Hok Hok' Howner Hfresh req.
  rewrite (handleRegisterBook_run book w Ht Ha Hu Hok). cbv zeta.
  rewrite (books_violates_none
             (registered (gen_random_uuid w (executed w)) (NOW w (executed w)) book)
             w Hfresh Howner).
  cbn [snd]. unfold handleDeleteBook, bind, delete.
  cbn [store_fault executed executing with_books]. rewrite Hok'.
  cbn [rows books_table books executing with_books].
  rewrite (delete_rows_filter _ _ (in_scope_id_owner (del_BookID req) (del_UserID req))).
  cbn [snd books executing put_rows books_table with_books].
  rewrite filter_app. cbn [filter Books.book_id Books.user_id registered req
                             del_BookID del_UserID].
  rewrite !String.eqb_refl. cbn [andb negb]. rewrite app_nil_r.
  apply filter_all. intros r Hr.
  apply Hfresh in Hr. apply String.eqb_neq in Hr. rewrite Hr. reflexivity.
Qed.

Lemma register_then_delete_witness :
  let w := Shelf.two_readers in
  let req := {| del_BookID := gen_random_uuid w (executed w);
                del_UserID := UserID Shelf.htdp |} in
  (Title Shelf.htdp <> "" /\ Author Shelf.htdp <> "" /\ UserID Shelf.htdp <> "")
  /\ (store_fault w (executed w) = None /\ store_fault w (S (executed w)) = None)
  /\ (exists u, In u (users w) /\ Users.id u = UserID Shelf.htdp)
  /\ (forall r, In r (books w) -> Books.book_id r <> gen_random_uuid w (executed w))
  /\ length (books (snd (handleRegisterBook (Some Shelf.htdp) w))) = 3%nat
  /\ books (snd (handleDeleteBook (Some req) (snd (handleRegisterBook (Some Shelf.htdp) w))))
     = [Sample.sicp; Shelf.taocp].
Proof.
  intros w req.
  assert (Ht : Title Shelf.htdp <> "") by discriminate.
  assert (Ha : Author Shelf.htdp <> "") by discriminate.
  assert (Hu : UserID Shelf.htdp <> "") by (vm_compute; discriminate).
  assert (Hok : store_fault w (executed w) = None) by reflexivity.
  assert (Hok' : store_fault w (S (executed w)) = None) by reflexivity.
  assert (Howner : exists u, In u (users w) /\ Users.id u = UserID Shelf.htdp)
    by (exists Sample.reader; split; [left; reflexivity|reflexivity]).
  assert (Hfresh : forall r, In r (books w) ->
                     Books.book_id r <> gen_random_uuid w (executed w)).
  { intros r [<-|[<-|[]]]; vm_compute; discriminate. }
  split; [repeat split; assumption|]. split; [split; assumption|].
  split; [exact Howner|]. split; [exact Hfresh|].
  split; [vm_compute; reflexivity|].
  exact (register_then_delete Shelf.htdp w Ht Ha Hu Hok Hok' Howner Hfresh).
Defined.

(** ** Mark-book-completed *)

Lemma handleCompleteBook_run (now : Time) (req : CompleteRequest) (w : World) :
  store_fault w (executed w) = None ->
  handleCompleteBook now (Some req) w
  = (Done {| code := StatusOK; body := Message "Book marked as completed" |},
     executing (Execute "books"
                  (postgrest.Update
                     [("status", Text "completed"); ("updated_at", Timestamptz now)])
                  [postgrest.Eq "book_id" (Text (cmp_BookID req))] None)
       (with_books
          (map (fun r => if String.eqb (Books.book_id r) (cmp_BookID req)
                         then completed now r else r) (books w)) w)).
Proof.
  intros Hok. unfold handleCompleteBook, bind, update. rewrite Hok.
  cbn [rows books_table].
  rewrite (update_rows_map _ _ (in_scope_id (cmp_BookID req)) _ (completed now) _
             (assign_completed now)).
  reflexivity.
Qed.

(** X9.  Mark-book-completed twice for the same book id, both calls taken by
    the store: after the second call [books] is what one call at the second
    moment leaves, so the second call changes no status, only [updated_at]
    of the rows with that id, and nothing at all when the clock reads the
    same. *)
Theorem complete_twice (now1 now2 : Time) (req : CompleteRequest) (w : World) :
  store_fault w (executed w) = None ->
  store_fault w (S (executed w)) = None ->
  let once := snd (handleCompleteBook now1 (Some req) w) in
  let twice := snd (handleCompleteBook now2 (Some req) once) in
  books twice
  = map (fun r => if String.eqb (Books.book_id r) (cmp_BookID req)
                  then completed now2 r else r) (books w)
  /\ map Books.status (books twice) = map Books.status (books once)
  /\ (now1 = now2 -> books twice = books once).
Proof.
  intros Hok Hok' once twice.
  assert (Honce : books once
                  = map (fun r => if String.eqb (Books.book_id r) (cmp_BookID req)
                                  then completed now1 r else r) (books w)).
  { unfold once. rewrite (handleCompleteBook_run now1 req w Hok). reflexivity. }
  assert (Htwice : books twice
                   = map (fun r => if String.eqb (Books.book_id r) (cmp_BookID req)
                                   then completed now2 r else r) (books once)).
  { unfold twice. rewrite (handleCompleteBook_run now2 req once); [reflexivity|].
    unfold once. rewrite (handleCompleteBook_run now1 req w Hok). exact Hok'. }
  assert (Hbooks : books twice
                   = map (fun r => if String.eqb (Books.book_id r) (cmp_BookID req)
                                   then completed now2 r else r) (books w)).
  { rewrite Htwice, Honce, map_map. apply map_ext. intros r.
    destruct (String.eqb (Books.book_id r) (cmp_BookID req)) eqn:E.
    - cbn [Books.book_id completed Books.set_updated_at Books.set_status].
      rewrite E. reflexivity.
    - rewrite E. reflexivity. }
  split; [exact Hbooks|]. split.
  - rewrite Hbooks, Honce, !map_map. apply map_ext. intros r.
    destruct (String.eqb (Books.book_id r) (cmp_BookID req)); reflexivity.
  - intros <-. rewrite Hbooks, Honce. reflexivity.
Qed.

Lemma complete_twice_witness :
  let req := {| cmp_BookID := Books.book_id Sample.sicp |} in
  let w := Shelf.two_readers in
  let once := snd (handleCompleteBook Sample.jan1 (Some req) w) in
  let twice := snd (handleCompleteBook Sample.jun1 (Some req) once) in
  (store_fault w (executed w) = None /\ store_fault w (S (executed w)) = None)
  /\ books twice = [completed Sample.jun1 Sample.sicp; Shelf.taocp].
Proof.
  intros req w once twice.
  assert (Hok : store_fault w (executed w) = None) by reflexivity.
  assert (Hok' : store_fault w (S (executed w)) = None) by reflexivity.
  split; [split; assumption|].
  unfold twice, once.
  rewrite (proj1 (complete_twice Sample.jan1 Sample.jun1 req w Hok Hok')).
  vm_compute. reflexivity.
Defined.

(** X10.  A book marked completed is out of the sweep's reach: after a
    mark-book-completed call that the store took, no sweep query, whenever
    it is made, answers with a row that has the book id of the call. *)
Theorem completed_is_not_swept (now later : Time) (req : CompleteRequest) (w : World) :
  store_fault w (executed w) = None ->
  store_fault w (S (executed w)) = None ->
  let w1 := snd (handleCompleteBook now (Some req) w) in
  exists selected,
    fst (select Books.row "*" (overdue later) w1) = Done (Ok (map Books.object selected))
    /\ forall r, In r selected -> Books.book_id r <> cmp_BookID req.
Proof.
  intros Hok Hok' w1.
  assert (Hw1 : w1 = snd (handleCompleteBook now (Some req) w)) by reflexivity.
  rewrite (handleCompleteBook_run now req w Hok) in Hw1. cbn [snd] in Hw1.
  exists (filter (is_overdue later) (books w1)). split.
  { apply select_overdue. rewrite Hw1. exact Hok'. }
  intros r Hr. apply filter_In in Hr. destruct Hr as [Hin Hdue].
  rewrite Hw1 in Hin. cbn [books executing with_books] in Hin.
  apply in_map_iff in Hin. destruct Hin as [r0 [Hr0 _]].
  destruct (String.eqb (Books.book_id r0) (cmp_BookID req)) eqn:E.
  - subst r. discriminate Hdue.
  - subst r. apply String.eqb_neq. exact E.
Qed.

Lemma completed_is_not_swept_witness :
  let req := {| cmp_BookID := Books.book_id Sample.sicp |} in
  let w := Shelf.two_readers in
  let w1 := snd (handleCompleteBook Sample.jan1 (Some req) w) in
  (store_fault w (executed w) = None /\ store_fault w (S (executed w)) = None)
  /\ fst (select Books.row "*" (overdue Sample.jun1) w) = Done (Ok [Books.object Sample.sicp])
  /\ exists selected,
       fst (select Books.row "*" (overdue Sample.jun1) w1)
       = Done (Ok (map Books.object selected))
       /\ forall r, In r selected -> Books.book_id r <> Books.book_id Sample.sicp.
Proof.
  intros req w w1.
  assert (Hok : store_fault w (executed w) = None) by reflexivity.
  assert (Hok' : store_fault w (S (executed w)) = None) by reflexivity.
  split; [split; assumption|]. split; [vm_compute; reflexivity|].
  exact (completed_is_not_swept Sample.jan1 Sample.jun1 req w Hok Hok').
Defined.

(** ** The sweep's selection over time *)

Lemma RFC3339_mono (a b : Time) : a <= b -> RFC3339 a <= RFC3339 b.
Proof.
  intros Hab. unfold RFC3339, Second.
  apply Z.mul_le_mono_nonneg_r; [lia|]. apply Z.div_le_mono; lia.
Qed.

Lemma RFC3339_within_a_second (t : Time) : t < RFC3339 t + Second.
Proof.
  unfold RFC3339, Second.
  pose proof (Z.mod_pos_bound t 1000000000 ltac:(lia)) as Hmod.
  pose proof (Z.div_mod t 1000000000 ltac:(lia)) as Hdiv.
  lia.
Qed.

(** X11.  A book a sweep selects stays selected by every later sweep, both
    as it was (a sweep that did not get the message through leaves it so)
    and with the status [insulted] that a sweep writes: it is messaged again
    at each sweep until its status or deadline is changed by another
    route. *)
Theorem selected_until_changed (now later : Time) (r : Books.row) :
  in_scope (overdue now) r = Some true ->
  now <= later ->
  in_scope (overdue later) r = Some true
  /\ in_scope (overdue later) (Books.set_status "insulted" r) = Some true.
Proof.
  rewrite !in_scope_overdue. intros Hsel Hlater.
  injection Hsel as Hsel. apply is_overdue_spec in Hsel. destruct Hsel as [Hstatus Hdue].
  pose proof (RFC3339_mono now later Hlater) as Hmono.
  split; f_equal; apply is_overdue_spec.
  - split; [exact Hstatus|lia].
  - split; [right; reflexivity|]. cbn [Books.deadline Books.set_status]. lia.
Qed.

Lemma selected_until_changed_witness :
  in_scope (overdue Sample.jun1) Sample.sicp = Some true
  /\ Sample.jun1 <= Sample.seven_tenths_past
  /\ in_scope (overdue Sample.seven_tenths_past) (Books.set_status "insulted" Sample.sicp)
     = Some true.
Proof.
  assert (H1 : in_scope (overdue Sample.jun1) Sample.sicp = Some true)
    by (vm_compute; reflexivity).
  assert (H2 : Sample.jun1 <= Sample.seven_tenths_past) by (vm_compute; discriminate).
  split; [exact H1|]. split; [exact H2|].
  exact (proj2 (selected_until_changed Sample.jun1 Sample.seven_tenths_past
                  Sample.sicp H1 H2)).
Defined.

(** X12.  The cut to a whole second delays a selection by less than a
    second: a book that is [unread] or [insulted] and whose deadline is a
    second or more before [now] is selected by the sweep's query. *)
Theorem selected_after_a_second (now : Time) (r : Books.row) :
  Books.status r = "unread" \/ Books.status r = "insulted" ->
  Books.deadline r + Second <= now ->
  in_scope (overdue now) r = Some true.
Proof.
  intros Hstatus Hdue. rewrite in_scope_overdue. f_equal.
  apply is_overdue_spec. split; [exact Hstatus|].
  pose proof (RFC3339_within_a_second now). lia.
Qed.

Lemma selected_after_a_second_witness :
  let now := Sample.jun1 + 1500000000 in
  (Books.status Sample.due_half_past = "unread"
   \/ Books.status Sample.due_half_past = "insulted")
  /\ Books.deadline Sample.due_half_past + Second <= now
  /\ in_scope (overdue now) Sample.due_half_past = Some true.
Proof.
  intros now.
  assert (H1 : Books.status Sample.due_half_past = "unread"
               \/ Books.status Sample.due_half_past = "insulted") by (left; reflexivity).
  assert (H2 : Books.deadline Sample.due_half_past + Second <= now)
    by (vm_compute; discriminate).
  split; [exact H1|]. split; [exact H2|].
  exact (selected_after_a_second now Sample.due_half_past H1 H2).
Defined.

(** ** The message and its delivery *)

(** X13.  [generateInsult] returns one of its five messages, never the empty
    text: the index drawn is always within the pool.  It takes one number
    from the random source and touches nothing else. *)
Theorem generateInsult_from_pool (book : Book) (w : World) :
  exists msg,
    generateInsult book w = (Done msg, drawing w)
    /\ In msg (insultMessages book)
    /\ msg <> "".
Proof.
  unfold generateInsult, bind, rand_Intn, ret. cbv beta iota.
  eexists. split; [reflexivity|].
  assert (Hin : In (nth (rand_source w (drawn w) mod length (insultMessages book))
                      (insultMessages book) "") (insultMessages book)).
  { apply nth_In. apply Nat.mod_upper_bound. discriminate. }
  split; [exact Hin|].
  revert Hin. generalize (nth (rand_source w (drawn w) mod length (insultMessages book))
                            (insultMessages book) "").
  intros msg Hin. cbn [insultMessages In] in Hin.
  destruct Hin as [<-|[<-|[<-|[<-|[<-|[]]]]]]; discriminate.
Qed.

(** X14.  [sendLineMessage] without a channel access token returns an error
    and sends nothing.  With a token it sends one push, to the recipient and
    with the text it was given, and returns [nil] exactly when the push API
    answers 200; an unreachable API and any other status are errors. *)
Theorem sendLineMessage_result (lineUserID message : string) (w : World) :
  (lookup_env "LINE_CHANNEL_ACCESS_TOKEN" (environ w) = "" ->
   sendLineMessage lineUserID message w
   = (Done (Some "LINE_CHANNEL_ACCESS_TOKEN is not set"), w))
  /\ (lookup_env "LINE_CHANNEL_ACCESS_TOKEN" (environ w) <> "" ->
      exists err,
        sendLineMessage lineUserID message w
        = (Done err, pushing (Push lineUserID message (line_api w (pushed w))) w)
        /\ (err = None <-> line_api w (pushed w) = Answered StatusOK)).
Proof.
  unfold sendLineMessage, bind, Getenv, post_push, ret. split.
  - intros Hnone. rewrite Hnone. reflexivity.
  - intros Hset. apply String.eqb_neq in Hset. rewrite Hset.
    destruct (line_api w (pushed w)) as [e|c].
    + eexists. split; [reflexivity|]. split; discriminate.
    + destruct (Nat.eqb c StatusOK) eqn:Hc.
      * eexists. split; [reflexivity|]. split; [intros _|reflexivity].
        apply Nat.eqb_eq in Hc. rewrite Hc. reflexivity.
      * eexists. split; [reflexivity|]. split; [discriminate|].
        intros Heq. injection Heq as ->. rewrite Nat.eqb_refl in Hc. discriminate Hc.
Qed.

Lemma sendLineMessage_result_witness :
  let w := Sample.world [] [] Sample.token (fun _ => None)
             (fun _ => Answered 429) (fun _ => 0%nat) in
  lookup_env "LINE_CHANNEL_ACCESS_TOKEN" (environ w) <> ""
  /\ lookup_env "LINE_CHANNEL_ACCESS_TOKEN" (environ (Sample.healthy [] [] [])) = ""
  /\ (exists err, fst (sendLineMessage "U4af4980629" "hello" w) = Done err /\ err <> None)
  /\ sendLineMessage "U4af4980629" "hello" (Sample.healthy [] [] [])
     = (Done (Some "LINE_CHANNEL_ACCESS_TOKEN is not set"), Sample.healthy [] [] []).
Proof.
  intros w.
  assert (H1 : lookup_env "LINE_CHANNEL_ACCESS_TOKEN" (environ w) <> "")
    by (vm_compute; discriminate).
  assert (H2 : lookup_env "LINE_CHANNEL_ACCESS_TOKEN" (environ (Sample.healthy [] [] [])) = "")
    by reflexivity.
  split; [exact H1|]. split; [exact H2|]. split.
  - destruct (proj2 (sendLineMessage_result "U4af4980629" "hello" w) H1)
      as [err [Hrun Hnil]].
    exists err. split; [rewrite Hrun; reflexivity|].
    intros Herr. apply Hnil in Herr. discriminate Herr.
  - exact (proj1 (sendLineMessage_result "U4af4980629" "hello" (Sample.healthy [] [] [])) H2).
Defined.

(** ** The loop of the sweep, turn by turn *)

(** One turn of the loop, written out: the draw, the lookup, and, when a user
    with the key is found and a token is set, the push and, after a
    delivered push, the update. *)
Lemma notify_eq (book : Book) (count : nat) (w : World) :
  let msg := nth (rand_source w (drawn w) mod 5) (insultMessages book) "" in
  let w1 := executing (Execute "users" (postgrest.Select "line_user_id")
                         [postgrest.Eq "id" (Text (UserID book))]
                         (store_fault w (executed w))) (drawing w) in
  notify book count w
  = match store_fault w (executed w) with
    | Some _ => (Done count, w1)
    | None =>
        match with_id (UserID book) (users w) with
        | [] => (Done count, w1)
        | u :: _ =>
            if String.eqb (lookup_env "LINE_CHANNEL_ACCESS_TOKEN" (environ w)) ""
            then (Done count, w1)
            else
              let w2 := pushing (Push (Users.line_user_id u) msg (line_api w (pushed w)))
                          w1 in
              match line_api w (pushed w) with
              | Unreachable _ => (Done count, w2)
              | Answered c =>
                  if Nat.eqb c StatusOK then
                    match store_fault w (S (executed w)) with
                    | Some e =>
                        (Done (S count),
                         executing (Execute "books"
                                      (postgrest.Update [("status", Text "insulted")])
                                      [postgrest.Eq "book_id" (Text (BookID book))]
                                      (Some e)) w2)
                    | None =>
                        (Done (S count),
                         executing (Execute "books"
                                      (postgrest.Update [("status", Text "insulted")])
                                      [postgrest.Eq "book_id" (Text (BookID book))]
                                      None)
                           (with_books (insulted_by_id (BookID book) (books w)) w2))
                    end
                  else (Done count, w2)
              end
        end
    end.
Proof.
  intros msg w1. subst msg w1.
  unfold notify, generateInsult, rand_Intn, bind, ret. cbv beta iota.
  rewrite lookup_owner. cbn [store_fault executed drawing users].
  change (length (insultMessages book)) with 5%nat.
  destruct (store_fault w (executed w)) as [e|]; [reflexivity|].
  destruct (with_id (UserID book) (users w)) as [|u found]; [reflexivity|].
  cbn [map assert_string index String.eqb Ascii.eqb Bool.eqb].
  cbn [assert_string ret].
  unfold sendLineMessage, bind, Getenv, post_push, ret.
  cbn [environ executing drawing].
  destruct (String.eqb (lookup_env "LINE_CHANNEL_ACCESS_TOKEN" (environ w)) "");
    [reflexivity|].
  cbn [line_api pushed executing drawing].
  destruct (line_api w (pushed w)) as [err|c]; [reflexivity|].
  destruct (Nat.eqb c StatusOK); [|reflexivity].
  rewrite mark_insulted. cbn [store_fault executed pushing executing drawing].
  destruct (store_fault w (S (executed w))); reflexivity.
Qed.

Lemma with_id_In (x : string) (us : list Users.row) (u : Users.row) (rest : list Users.row) :
  with_id x us = u :: rest -> In u us /\ Users.id u = x.
Proof.
  intros Hfound.
  assert (Hu : In u (with_id x us)) by (rewrite Hfound; left; reflexivity).
  apply filter_In in Hu. destruct Hu as [Hin Hid].
  apply String.eqb_eq in Hid. split; assumption.
Qed.

Lemma insultMessages_nth (book : Book) (n : nat) :
  In (nth (n mod 5) (insultMessages book) "") (insultMessages book).
Proof. apply nth_In. apply Nat.mod_upper_bound. discriminate. Qed.

(** X15.  A push made in a turn of the loop goes to the external id of a user
    whose key is the owner key held by the turn's book, and its text is one
    of the five messages for that book; the turn pushes nothing else. *)
Theorem push_goes_to_owner (book : Book) (count : nat) (w : World)
    (to message : string) (reply : LineReply) :
  In (Push to message reply) (trace (snd (notify book count w))) ->
  In (Push to message reply) (trace w)
  \/ ((exists u, In u (users w) /\ Users.id u = UserID book /\ Users.line_user_id u = to)
      /\ In message (insultMessages book)).
Proof.
  rewrite notify_eq. cbv zeta.
  destruct (store_fault w (executed w)) as [e|].
  { cbn. intros [H|H]; [discriminate H|left; exact H]. }
  destruct (with_id (UserID book) (users w)) as [|u found] eqn:Hfound.
  { cbn. intros [H|H]; [discriminate H|left; exact H]. }
  apply with_id_In in Hfound. destruct Hfound as [Hin Hid].
  assert (Hown : forall t m rp,
             Push t m rp
             = Push (Users.line_user_id u)
                 (nth (rand_source w (drawn w) mod 5) (insultMessages book) "")
                 (line_api w (pushed w)) ->
             (exists u0, In u0 (users w) /\ Users.id u0 = UserID book
                         /\ Users.line_user_id u0 = t)
             /\ In m (insultMessages book)).
  { intros t m rp Heq. injection Heq as -> -> ->.
    split; [exists u; repeat split; assumption|apply insultMessages_nth]. }
  destruct (String.eqb (lookup_env "LINE_CHANNEL_ACCESS_TOKEN" (environ w)) "").
  { cbn. intros [H|H]; [discriminate H|left; exact H]. }
  destruct (line_api w (pushed w)) as [err|c] eqn:Hreply.
  { cbn. intros [H|[H|H]]; [right; apply (Hown _ _ _ (eq_sym H))|discriminate H|left; exact H]. }
  destruct (Nat.eqb c StatusOK).
  2:{ cbn. intros [H|[H|H]];
        [right; apply (Hown _ _ _ (eq_sym H))|discriminate H|left; exact H]. }
  destruct (store_fault w (S (executed w))); cbn;
    (intros [H|[H|[H|H]]];
     [discriminate H|right; apply (Hown _ _ _ (eq_sym H))|discriminate H|left; exact H]).
Qed.

Lemma push_goes_to_owner_witness :
  let w := Sample.healthy [Sample.reader; Shelf.other] [Sample.sicp] Sample.token in
  let message := nth 3 (insultMessages Shelf.sicp_struct) "" in
  In (Push (Users.line_user_id Sample.reader) message (Answered 200))
     (trace (snd (notify Shelf.sicp_struct 0 w)))
  /\ (exists u, In u (users w) /\ Users.id u = UserID Shelf.sicp_struct
                /\ Users.line_user_id u = Users.line_user_id Sample.reader)
  /\ In message (insultMessages Shelf.sicp_struct).
Proof.
  intros w message.
  assert (Hpush : In (Push (Users.line_user_id Sample.reader) message (Answered 200))
                    (trace (snd (notify Shelf.sicp_struct 0 w))))
    by (right; left; reflexivity).
  split; [exact Hpush|].
  destruct (push_goes_to_owner Shelf.sicp_struct 0 w _ _ _ Hpush) as [[]|Hown].
  exact Hown.
Defined.

(** The outside is read, never written: a turn leaves the environment and
    the answers of the outside as they were. *)
Lemma notify_environ (book : Book) (count : nat) (w : World) :
  environ (snd (notify book count w)) = environ w.
Proof.
  rewrite notify_eq. cbv zeta.
  destruct (store_fault w (executed w)); [reflexivity|].
  destruct (with_id (UserID book) (users w)); [reflexivity|].
  destruct (String.eqb _ ""); [reflexivity|].
  destruct (line_api w (pushed w)) as [err|c]; [reflexivity|].
  destruct (Nat.eqb c StatusOK); [|reflexivity].
  destruct (store_fault w (S (executed w))); reflexivity.
Qed.

(** X16.  With no channel access token set, a run of the loop delivers to
    nobody: the counter stays, no push is made and no row changes.  Each
    book still costs one random draw and one owner lookup, since the token
    is read only after the lookup. *)
Theorem loop_without_token (books0 : list Book) :
  forall (count : nat) (w : World),
  lookup_env "LINE_CHANNEL_ACCESS_TOKEN" (environ w) = "" ->
  exists w',
    range_books books0 count w = (Done count, w')
    /\ users w' = users w /\ books w' = books w
    /\ pushes (trace w') = pushes (trace w)
    /\ executed w' = (executed w + length books0)%nat
    /\ drawn w' = (drawn w + length books0)%nat.
Proof.
  induction books0 as [|book rest IH]; intros count w Htoken.
  - exists w. cbn. repeat split; auto.
  - assert (Hturn : exists w1,
               notify book count w = (Done count, w1)
               /\ users w1 = users w /\ books w1 = books w
               /\ pushes (trace w1) = pushes (trace w)
               /\ executed w1 = S (executed w) /\ drawn w1 = S (drawn w)
               /\ environ w1 = environ w).
    { rewrite notify_eq. cbv zeta. rewrite Htoken. cbn [String.eqb].
      destruct (store_fault w (executed w)).
      { eexists. split; [reflexivity|]. cbn. repeat split; reflexivity. }
      destruct (with_id (UserID book) (users w));
        (eexists; split; [reflexivity|]; cbn; repeat split; reflexivity). }
    destruct Hturn as [w1 [Hrun1 [Hu1 [Hb1 [Hp1 [He1 [Hd1 Henv1]]]]]]].
    destruct (IH count w1) as [w' [Hrun [Hu [Hb [Hp [He Hd]]]]]].
    { rewrite Henv1. exact Htoken. }
    exists w'. split.
    { cbn [range_books]. unfold bind. rewrite Hrun1. exact Hrun. }
    cbn [length]. repeat split; try congruence; lia.
Qed.

Lemma loop_without_token_witness :
  let w := Sample.healthy [Sample.reader] [Sample.sicp] [] in
  lookup_env "LINE_CHANNEL_ACCESS_TOKEN" (environ w) = ""
  /\ exists w',
       range_books [Shelf.sicp_struct] 0 w = (Done 0%nat, w')
       /\ books w' = [Sample.sicp] /\ pushes (trace w') = 0%nat.
Proof.
  intros w.
  assert (H : lookup_env "LINE_CHANNEL_ACCESS_TOKEN" (environ w) = "") by reflexivity.
  split; [exact H|].
  destruct (loop_without_token [Shelf.sicp_struct] 0%nat w H)
    as [w' [Hrun [_ [Hb [Hp _]]]]].
  exists w'. split; [exact Hrun|]. split; [exact Hb|exact Hp].
Defined.

(** What a run of the loop costs, and how far the counter can go. *)
Lemma range_books_bounds (books0 : list Book) :
  forall (count : nat) (w : World),
  exists n w',
    range_books books0 count w = (Done n, w')
    /\ (count <= n <= count + length books0)%nat
    /\ (n - count <= pushes (trace w') - pushes (trace w))%nat
    /\ (pushes (trace w) <= pushes (trace w') <= pushes (trace w) + length books0)%nat
    /\ (executed w + length books0 <= executed w' <= executed w + 2 * length books0)%nat.
Proof.
  induction books0 as [|book rest IH]; intros count w.
  - exists count, w. cbn. repeat split; lia.
  - assert (Hturn : exists n1 w1,
               notify book count w = (Done n1, w1)
               /\ (count <= n1 <= S count)%nat
               /\ (n1 - count <= pushes (trace w1) - pushes (trace w))%nat
               /\ (pushes (trace w) <= pushes (trace w1) <= S (pushes (trace w)))%nat
               /\ (S (executed w) <= executed w1 <= S (S (executed w)))%nat).
    { rewrite notify_eq. cbv zeta.
      destruct (store_fault w (executed w)).
      { do 2 eexists. split; [reflexivity|].
        cbn [pushes trace executed executing pushing drawing with_books]. repeat split; lia. }
      destruct (with_id (UserID book) (users w)).
      { do 2 eexists. split; [reflexivity|].
        cbn [pushes trace executed executing pushing drawing with_books]. repeat split; lia. }
      destruct (String.eqb _ "").
      { do 2 eexists. split; [reflexivity|].
        cbn [pushes trace executed executing pushing drawing with_books]. repeat split; lia. }
      destruct (line_api w (pushed w)) as [err|c].
      { do 2 eexists. split; [reflexivity|].
        cbn [pushes trace executed executing pushing drawing with_books]. repeat split; lia. }
      destruct (Nat.eqb c StatusOK).
      2:{ do 2 eexists. split; [reflexivity|].
        cbn [pushes trace executed executing pushing drawing with_books]. repeat split; lia. }
      destruct (store_fault w (S (executed w)));
        (do 2 eexists; split; [reflexivity|];
         cbn [pushes trace executed executing pushing drawing with_books];
         repeat split; lia). }
    destruct Hturn as [n1 [w1 [Hrun1 [Hn1 [Hc1 [Hp1 He1]]]]]].
    destruct (IH n1 w1) as [n [w' [Hrun [Hn [Hc [Hp He]]]]]].
    exists n, w'. split.
    { cbn [range_books]. unfold bind. rewrite Hrun1. exact Hrun. }
    cbn [length]. repeat split; lia.
Qed.

(** X17.  A run of the loop makes at most one push per book and counts a
    book only when a push was made for it; each book costs one owner lookup
    and at most one update; so the counter goes up by at most the number of
    books, and by no more than the pushes made. *)
Theorem loop_is_bounded (books0 : list Book) (count : nat) (w : World) :
  exists n w',
    range_books books0 count w = (Done n, w')
    /\ (count <= n <= count + length books0)%nat
    /\ (n - count <= pushes (trace w') - pushes (trace w))%nat
    /\ (pushes (trace w) <= pushes (trace w') <= pushes (trace w) + length books0)%nat
    /\ (executed w + length books0 <= executed w' <= executed w + 2 * length books0)%nat.
Proof. exact (range_books_bounds books0 count w). Qed.

(** X18.  A row of [books] decodes into a struct that keeps title, author,
    deadline and status and has empty [BookID] and [UserID] (and no insult
    level or time stamps), so in a store whose user keys are not empty a
    sweep looks up no owner it can find: whatever the outside answers, it
    pushes no message, changes no row, and, when it answers 200, reports 0
    books. *)
Theorem sweep_with_uuid_keys (now : Time) (authorization : string) (w : World) :
  (forall u, In u (users w) -> Users.id u <> "") ->
  (forall r,
     unmarshal_Book (Books.object r)
     = {| BookID := ""; UserID := "";
          Title := Books.title r; Author := Books.author r;
          Deadline := Books.deadline r; Status := Books.status r;
          InsultLevel := 0; CreatedAt := zeroTime; UpdatedAt := zeroTime |})
  /\ exists resp w',
       handleCheckDeadlines now authorization w = (Done resp, w')
       /\ users w' = users w /\ books w' = books w
       /\ pushes (trace w') = pushes (trace w)
       /\ (code resp = StatusOK ->
           body resp = Message "Checked deadlines. Found 0 expired books.").
Proof.
  intros Hkeys. split.
  - exact unmarshal_Book_row.
  - exact (sweep_never_finds_owner now authorization w Hkeys).
Qed.

Lemma sweep_with_uuid_keys_witness :
  let w := Sample.healthy [Sample.reader; Shelf.other] [Sample.sicp; Shelf.taocp]
             Sample.token in
  (forall u, In u (users w) -> Users.id u <> "")
  /\ exists resp w',
       handleCheckDeadlines Sample.jun1 "" w = (Done resp, w')
       /\ books w' = [Sample.sicp; Shelf.taocp]
       /\ pushes (trace w') = 0%nat.
Proof.
  intros w.
  assert (Hkeys : forall u, In u (users w) -> Users.id u <> "").
  { intros u [<-|[<-|[]]]; discriminate. }
  split; [exact Hkeys|].
  destruct (proj2 (sweep_with_uuid_keys Sample.jun1 "" w Hkeys))
    as [resp [w' [Hrun [_ [Hb [Hp _]]]]]].
  exists resp, w'. split; [exact Hrun|]. split; [exact Hb|exact Hp].
Defined.

(** ** Every route *)

Lemma Forall2_identity_map (f : Books.row -> Books.row) (l : list Books.row) :
  (forall r, identity (f r) = identity r) ->
  Forall2 (fun r r' => identity r' = identity r) l (map f l).
Proof. intros Hf. induction l; constructor; auto. Qed.

Lemma Forall2_identity_refl (l : list Books.row) :
  Forall2 (fun r r' => identity r' = identity r) l l.
Proof. induction l; constructor; auto. Qed.

Lemma only_insulted_identity (l l' : list Books.row) :
  only_insulted l l' -> Forall2 (fun r r' => identity r' = identity r) l l'.
Proof.
  intros H. induction H as [|r r' l l' Hr _ IH]; constructor; [|exact IH].
  destruct Hr as [->| ->]; reflexivity.
Qed.

Lemma identity_kept (l l' : list Books.row) :
  Forall2 (fun r r' => identity r' = identity r) l l' ->
  map identity l' = map identity l.
Proof.
  intros Hall. induction Hall as [|r r' l l' Hr _ IH]; [reflexivity|].
  cbn [map]. rewrite Hr, IH. reflexivity.
Qed.

Lemma identity_kept_In (l l' : list Books.row) (b' : Books.row) :
  Forall2 (fun r r' => identity r' = identity r) l l' ->
  In b' l' -> exists b, In b l /\ identity b' = identity b.
Proof.
  intros Hall. induction Hall as [|r r' l l' Hr _ IH]; intros Hin; [destruct Hin|].
  destruct Hin as [<-|Hin].
  - exists r. split; [left; reflexivity|exact Hr].
  - destruct (IH Hin) as [b [Hb Hid]]. exists b. split; [right; exact Hb|exact Hid].
Qed.

(** The run of every route: it ends with an answer; a client error leaves
    the world as it was; a server error leaves the tables as they were; a
    success has changed the tables as the route may. *)
Lemma serve_run (now : Time) (rq : Request) (w : World) :
  exists resp w',
    serve now rq w = (Done resp, w')
    /\ (((code resp = StatusBadRequest \/ code resp = StatusUnauthorized
          \/ code resp = StatusMethodNotAllowed) /\ w' = w)
        \/ (code resp = StatusInternalServerError
            /\ users w' = users w /\ books w' = books w)
        \/ ((code resp = StatusOK \/ code resp = StatusCreated) /\ change rq w w')).
Proof.
  destruct rq as [ | | | [req| ] | userId | [book| ] | [book| ] | [req| ] | | [req| ]
                 | authorization]; cbn [serve].
  - do 2 eexists. split; [reflexivity|]. right. right. cbn. auto.
  - do 2 eexists. split; [reflexivity|]. right. right. cbn. auto.
  - do 2 eexists. split; [reflexivity|]. right. right. cbn. auto.
  - (* auth-bootstrap *)
    unfold handleLineAuth, bind, select.
    destruct (store_fault w (executed w)).
    { do 2 eexists. split; [reflexivity|]. right. left. cbn. auto. }
    cbn [rows users_table].
    rewrite (select_rows_filter _ _ (in_scope_line_user_id (LineUserID req))).
    rewrite render_all_star.
    destruct (filter _ (users w)).
    2:{ do 2 eexists. split; [reflexivity|]. right. right. cbn. auto. }
    cbn [map]. unfold insert.
    cbn [executed executing store_fault gen_random_uuid NOW].
    destruct (store_fault w (S (executed w))).
    { do 2 eexists. split; [reflexivity|]. right. left. cbn. auto. }
    cbn [not_null users_table Users.not_null forallb given existsb fst
         String.eqb Ascii.eqb Bool.eqb orb andb].
    cbn [blank users_table assign assign_all Users.assign Users.blank
         String.eqb Ascii.eqb Bool.eqb].
    match goal with
    | |- context [violates ?u ?w1] => destruct (violates u w1) eqn:Hv
    end.
    { do 2 eexists. split; [reflexivity|]. right. left. cbn. auto. }
    do 2 eexists. split; [reflexivity|]. right. right.
    split; [left; reflexivity|]. cbn [change]. split; [reflexivity|].
    right. eexists. split; [reflexivity|]. exact Hv.
  - do 2 eexists. split; [reflexivity|]. left. cbn. auto.
  - (* list-books *)
    unfold handleGetBooks. destruct (String.eqb userId "").
    { do 2 eexists. split; [reflexivity|]. left. cbn. auto. }
    unfold bind, select. destruct (store_fault w (executed w)).
    { do 2 eexists. split; [reflexivity|]. right. left. cbn. auto. }
    cbn [rows books_table].
    rewrite (select_rows_filter _ _ (in_scope_owner userId)), render_all_star.
    do 2 eexists. split; [reflexivity|]. right. right. cbn. auto.
  - (* create-book *)
    unfold handleRegisterBook.
    destruct (String.eqb (Title book) "" || String.eqb (Author book) ""
              || String.eqb (UserID book) "")%bool.
    { do 2 eexists. split; [reflexivity|]. left. cbn. auto. }
    unfold bind, insert. destruct (store_fault w (executed w)).
    { do 2 eexists. split; [reflexivity|]. right. left. cbn. auto. }
    cbn [not_null books_table Books.not_null forallb given existsb fst
         String.eqb Ascii.eqb Bool.eqb orb andb].
    cbn [blank books_table assign].
    rewrite (assign_registered (gen_random_uuid w (executed w)) (NOW w (executed w)) book).
    match goal with
    | |- context [violates ?b ?w1] => destruct (violates b w1) eqn:Hv
    end.
    { do 2 eexists. split; [reflexivity|]. right. left. cbn. auto. }
    do 2 eexists. split; [reflexivity|]. right. right.
    split; [right; reflexivity|]. cbn [change]. split; [reflexivity|].
    eexists. split; [reflexivity|]. exact Hv.
  - do 2 eexists. split; [reflexivity|]. left. cbn. auto.
  - (* update-book *)
    unfold handleUpdateBook, bind, update. destruct (store_fault w (executed w)).
    { do 2 eexists. split; [reflexivity|]. right. left. cbn. auto. }
    cbn [rows books_table].
    rewrite (update_rows_map _ _ (in_scope_id_owner (BookID book) (UserID book))
               _ (updated now book) _ (assign_updated now book)).
    do 2 eexists. split; [reflexivity|]. right. right.
    split; [left; reflexivity|]. cbn [change]. split; [reflexivity|].
    apply Forall2_identity_map. intros r.
    destruct (String.eqb (Books.book_id r) (BookID book)
              && String.eqb (Books.user_id r) (UserID book))%bool; reflexivity.
  - do 2 eexists. split; [reflexivity|]. left. cbn. auto.
  - (* delete-book *)
    unfold handleDeleteBook, bind, delete. destruct (store_fault w (executed w)).
    { do 2 eexists. split; [reflexivity|]. right. left. cbn. auto. }
    cbn [rows books_table].
    rewrite (delete_rows_filter _ _ (in_scope_id_owner (del_BookID req) (del_UserID req))).
    do 2 eexists. split; [reflexivity|]. right. right.
    split; [left; reflexivity|]. cbn [change]. split; [reflexivity|].
    eexists. reflexivity.
  - do 2 eexists. split; [reflexivity|]. left. cbn. auto.
  - do 2 eexists. split; [reflexivity|]. left. cbn. auto.
  - (* mark-book-completed *)
    unfold handleCompleteBook, bind, update. destruct (store_fault w (executed w)).
    { do 2 eexists. split; [reflexivity|]. right. left. cbn. auto. }
    cbn [rows books_table].
    rewrite (update_rows_map _ _ (in_scope_id (cmp_BookID req)) _ (completed now) _
               (assign_completed now)).
    do 2 eexists. split; [reflexivity|]. right. right.
    split; [left; reflexivity|]. cbn [change]. split; [reflexivity|].
    apply Forall2_identity_map. intros r.
    destruct (String.eqb (Books.book_id r) (cmp_BookID req)); reflexivity.
  - do 2 eexists. split; [reflexivity|]. left. cbn. auto.
  - (* the sweep *)
    destruct (goes_to_store w (CronCheck authorization)) eqn:Hgo.
    2:{ rewrite (handleCheckDeadlines_unauthorized _ _ _ Hgo).
        do 2 eexists. split; [reflexivity|]. left. cbn. auto. }
    rewrite (handleCheckDeadlines_authorized _ _ _ Hgo).
    destruct (store_fault w (executed w)).
    { do 2 eexists. split; [reflexivity|]. right. left. cbn. auto. }
    match goal with
    | |- context [range_books ?bs 0%nat ?w1] =>
        destruct (range_books_run bs 0%nat w1)
          as [n [w' [Hrun [_ [Husers [Hbooks _]]]]]]
    end.
    rewrite Hrun. do 2 eexists. split; [reflexivity|]. right. right.
    split; [left; reflexivity|]. cbn [change]. split; [exact Husers|].
    apply only_insulted_identity. exact Hbooks.
Qed.

(** X19.  Every request is answered, with one of six status codes.  An
    answer 400, 401 or 405 leaves the world as it was: no store call, no
    push, no log line.  An answer 500 leaves every row of [users] and
    [books] as it was. *)
Theorem errors_write_nothing (now : Time) (rq : Request) (w : World) :
  exists resp w',
    serve now rq w = (Done resp, w')
    /\ In (code resp) [200; 201; 400; 401; 405; 500]%nat
    /\ ((400 <= code resp < 500)%nat -> w' = w)
    /\ (code resp = 500%nat -> users w' = users w /\ books w' = books w).
Proof.
  destruct (serve_run now rq w) as [resp [w' [Hrun Hcases]]].
  exists resp, w'. split; [exact Hrun|].
  unfold StatusBadRequest, StatusUnauthorized, StatusMethodNotAllowed,
    StatusInternalServerError, StatusOK, StatusCreated in Hcases.
  destruct Hcases as [[Hcode Hsame] | [[Hcode Hsame] | [Hcode _]]].
  - split; [cbn; destruct Hcode as [->|[->| ->]]; auto 10|].
    split; [intros _; exact Hsame|].
    intros H500. destruct Hcode as [H|[H|H]]; rewrite H in H500; discriminate.
  - split; [cbn; rewrite Hcode; auto 10|].
    split; [rewrite Hcode; lia|]. intros _. exact Hsame.
  - split; [cbn; destruct Hcode as [->| ->]; auto 10|].
    split; [destruct Hcode as [->| ->]; lia|].
    intros H500. destruct Hcode as [H|H]; rewrite H in H500; discriminate.
Qed.

(** X20.  No route removes or rewrites a user: after any request [users] is
    what it was, with at most one row added at the end, and a row is added
    by auth-bootstrap only. *)
Theorem users_only_grow (now : Time) (rq : Request) (w : World) :
  exists added,
    users (snd (serve now rq w)) = users w ++ added
    /\ (length added <= 1)%nat
    /\ (added <> [] -> exists decoded, rq = PostAuthLine decoded).
Proof.
  destruct (serve_run now rq w) as [resp [w' [Hrun Hcases]]].
  rewrite Hrun. cbn [snd].
  assert (Hkept : users w' = users w ->
                  exists added, users w' = users w ++ added
                                /\ (length added <= 1)%nat
                                /\ (added <> [] -> exists decoded, rq = PostAuthLine decoded)).
  { intros ->. exists []. rewrite app_nil_r. split; [reflexivity|].
    split; [cbn; lia|]. intros H. contradiction. }
  destruct Hcases as [[_ ->] | [[_ [Hu _]] | [_ Hchange]]]; auto.
  destruct rq; cbn [change] in Hchange;
    try (destruct Hchange as [Hu _]; auto; fail).
  destruct Hchange as [_ [Hu | [u [Hu _]]]]; auto.
  exists [u]. split; [exact Hu|]. split; [cbn; lia|].
  intros _. eexists. reflexivity.
Qed.

(** X21.  No route but delete-book removes a row of [books], and delete-book
    rewrites nothing; no route rewrites the key, the owner or the creation
    time of a book; and a request adds at most one book, at the end. *)
Theorem books_keep_identity (now : Time) (rq : Request) (w : World) :
  match rq with
  | DeleteBooks _ => exists p, books (snd (serve now rq w)) = filter p (books w)
  | _ =>
      exists added,
        map identity (books (snd (serve now rq w)))
        = map identity (books w) ++ map identity added
        /\ (length added <= 1)%nat
        /\ (added <> [] -> exists decoded, rq = PostBooks decoded)
  end.
Proof.
  destruct (serve_run now rq w) as [resp [w' [Hrun Hcases]]].
  rewrite Hrun. cbn [snd].
  assert (Hkept : forall rq0 : Request, books w' = books w ->
                  exists added,
                    map identity (books w') = map identity (books w) ++ map identity added
                    /\ (length added <= 1)%nat
                    /\ (added <> [] -> exists decoded, rq0 = PostBooks decoded)).
  { intros rq0 ->. exists []. cbn [map]. rewrite app_nil_r. split; [reflexivity|].
    split; [cbn; lia|]. intros H. contradiction. }
  assert (Hrewritten : forall rq0 : Request,
                       Forall2 (fun r r' => identity r' = identity r) (books w) (books w') ->
                       exists added,
                         map identity (books w')
                         = map identity (books w) ++ map identity added
                         /\ (length added <= 1)%nat
                         /\ (added <> [] -> exists decoded, rq0 = PostBooks decoded)).
  { intros rq0 Hall. exists []. cbn [map]. rewrite app_nil_r. split.
    - apply identity_kept. exact Hall.
    - split; [cbn; lia|]. intros H. contradiction. }
  assert (Hfilter : books w' = books w -> exists p, books w' = filter p (books w)).
  { intros ->. exists (fun _ => true). symmetry. apply filter_all. reflexivity. }
  destruct Hcases as [[_ ->] | [[_ [_ Hb]] | [_ Hchange]]].
  - destruct rq; auto.
  - destruct rq; auto.
  - destruct rq; cbn [change] in Hchange;
      try (destruct Hchange as [_ Hb]; auto; fail).
    + destruct Hchange as [Hb _]; auto.
    + destruct Hchange as [_ [b [Hb _]]].
      exists [b]. rewrite Hb, map_app. split; [reflexivity|].
      split; [cbn; lia|]. intros _. eexists. reflexivity.
Qed.

Lemma NoDup_snoc {A : Type} (l : list A) (a : A) :
  NoDup l -> ~ In a l -> NoDup (l ++ [a]).
Proof.
  intros Hl Ha. induction Hl as [|b l Hb Hl IH]; cbn.
  - constructor; [intros []|constructor].
  - constructor.
    + rewrite in_app_iff. intros [H|[H|[]]]; [contradiction|].
      apply Ha. left. symmetry. exact H.
    + apply IH. intros H. apply Ha. right. exact H.
Qed.

(** Rows taken out of [books] leave the keys that stay without duplicates. *)
Lemma book_ids_after_delete (keep : Books.row -> bool) (bs : list Books.row) :
  NoDup (map Books.book_id bs) -> NoDup (map Books.book_id (filter keep bs)).
Proof.
  intros Hkeys. induction bs as [|b bs IH]; [exact Hkeys|].
  cbn [map] in Hkeys. apply NoDup_cons_iff in Hkeys. destruct Hkeys as [Hnew Hrest].
  cbn [filter]. destruct (keep b); [|exact (IH Hrest)].
  cbn [map]. apply NoDup_cons; [|exact (IH Hrest)].
  intros Hin. apply Hnew. apply in_map_iff in Hin. destruct Hin as [b0 [Hid Hb0]].
  apply filter_In in Hb0. apply in_map_iff. exists b0. split; [exact Hid|apply Hb0].
Qed.

Lemma existsb_false_not_in {A : Type} (f : A -> string) (x : string) (l : list A) :
  existsb (fun a => String.eqb (f a) x) l = false -> ~ In x (map f l).
Proof.
  intros Hno Hin. apply in_map_iff in Hin. destruct Hin as [a [Ha Hin]].
  assert (Hyes : existsb (fun a => String.eqb (f a) x) l = true).
  { apply existsb_exists. exists a. split; [exact Hin|]. apply String.eqb_eq. exact Ha. }
  rewrite Hyes in Hno. discriminate Hno.
Qed.

(** X22.  The constraints of the schema are kept by every route: if the
    primary keys of [users] and [books] and the external ids are without
    duplicates and every book has its owner among the users before a
    request, they are so after it, whatever the request and whatever the
    outside answers. *)
Theorem constraints_are_kept (now : Time) (rq : Request) (w : World) :
  consistent w -> consistent (snd (serve now rq w)).
Proof.
  intros [Hpk [Hline [Hbk Hfk]]].
  destruct (serve_run now rq w) as [resp [w' [Hrun Hcases]]].
  rewrite Hrun. cbn [snd].
  assert (Hsame : users w' = users w -> books w' = books w -> consistent w').
  { intros Hu Hb. unfold consistent. rewrite Hu, Hb. repeat split; assumption. }
  assert (Hrewritten : users w' = users w ->
                       Forall2 (fun r r' => identity r' = identity r) (books w) (books w') ->
                       consistent w').
  { intros Hu Hall. unfold consistent. rewrite Hu.
    split; [exact Hpk|]. split; [exact Hline|].
    assert (Hids : map Books.book_id (books w') = map Books.book_id (books w)).
    { pose proof (identity_kept _ _ Hall) as Hid.
      apply (f_equal (map (fun t : string * string * Time => fst (fst t)))) in Hid.
      rewrite !map_map in Hid. exact Hid. }
    split; [rewrite Hids; exact Hbk|].
    intros b' Hb'. destruct (identity_kept_In _ _ b' Hall Hb') as [b [Hb Hid]].
    injection Hid as _ Howner _. rewrite Howner. apply Hfk. exact Hb. }
  destruct Hcases as [[_ ->] | [[_ [Hu Hb]] | [_ Hchange]]].
  - repeat split; assumption.
  - auto.
  - destruct rq; cbn [change] in Hchange;
      try (destruct Hchange as [Hu Hb]; auto; fail).
    + (* auth-bootstrap *)
      destruct Hchange as [Hb [Hu | [u [Hu Hv]]]]; [auto|].
      cbn [violates users_table] in Hv.
      destruct (existsb (fun u0 => String.eqb (Users.id u0) (Users.id u)) (users w))
        eqn:Hid; [discriminate Hv|].
      destruct (existsb (fun u0 => String.eqb (Users.line_user_id u0)
                                     (Users.line_user_id u)) (users w))
        eqn:Hlid; [discriminate Hv|].
      unfold consistent. rewrite Hu, Hb, !map_app. cbn [map].
      split; [apply NoDup_snoc; [exact Hpk|apply existsb_false_not_in; exact Hid]|].
      split; [apply NoDup_snoc; [exact Hline|apply existsb_false_not_in; exact Hlid]|].
      split; [exact Hbk|].
      intros b Hin. destruct (Hfk b Hin) as [u0 [Hu0 Hown]].
      exists u0. split; [apply in_or_app; left; exact Hu0|exact Hown].
    + (* create-book *)
      destruct Hchange as [Hu [b [Hb Hv]]].
      cbn [violates books_table] in Hv.
      destruct (existsb (fun b0 => String.eqb (Books.book_id b0) (Books.book_id b))
                  (books w)) eqn:Hid; [discriminate Hv|].
      destruct (existsb (fun u => String.eqb (Users.id u) (Books.user_id b)) (users w))
        eqn:Hown; [|discriminate Hv].
      unfold consistent. rewrite Hu, Hb, map_app. cbn [map].
      split; [exact Hpk|]. split; [exact Hline|].
      split; [apply NoDup_snoc; [exact Hbk|apply existsb_false_not_in; exact Hid]|].
      intros b0 Hin. apply in_app_or in Hin. destruct Hin as [Hin|[<-|[]]].
      * apply Hfk. exact Hin.
      * apply existsb_exists in Hown. destruct Hown as [u [Hin Heq]].
        exists u. split; [exact Hin|]. apply String.eqb_eq. exact Heq.
    + (* delete-book *)
      destruct Hchange as [Hu [p Hb]].
      unfold consistent. rewrite Hu, Hb.
      split; [exact Hpk|]. split; [exact Hline|].
      split; [apply book_ids_after_delete; exact Hbk|].
      intros b Hin. apply filter_In in Hin. apply Hfk. apply Hin.
Qed.

Lemma constraints_are_kept_witness :
  consistent Shelf.two_readers
  /\ consistent (snd (serve Sample.jun1 (PostBooks (Some Shelf.htdp)) Shelf.two_readers))
  /\ length (books (snd (serve Sample.jun1 (PostBooks (Some Shelf.htdp)) Shelf.two_readers)))
     = 3%nat.
Proof.
  assert (H : consistent Shelf.two_readers).
  { unfold consistent. cbn [users books Shelf.two_readers Sample.healthy Sample.world map].
    split; [|split; [|split]].
    - constructor; [cbn; intros [H|[]]; discriminate H|].
      constructor; [intros []|constructor].
    - constructor; [cbn; intros [H|[]]; discriminate H|].
      constructor; [intros []|constructor].
    - constructor; [cbn; intros [H|[]]; discriminate H|].
      constructor; [intros []|constructor].
    - intros b [<-|[<-|[]]].
      + exists Sample.reader. split; [left; reflexivity|reflexivity].
      + exists Shelf.other. split; [right; left; reflexivity|reflexivity]. }
  split; [exact H|].
  split; [|vm_compute; reflexivity].
  exact (constraints_are_kept Sample.jun1 (PostBooks (Some Shelf.htdp)) Shelf.two_readers H).
Defined.

(** ** Auth-bootstrap, once more *)

(** Auth-bootstrap does not read the access token of the request: two
    requests with the same external id are answered alike and leave the same
    world, whatever their tokens. *)
Lemma auth_bootstrap_ignores_token (req1 req2 : LineAuthRequest) (w : World) :
  LineUserID req1 = LineUserID req2 ->
  handleLineAuth (Some req1) w = handleLineAuth (Some req2) w.
Proof.
  intros Hsame. unfold handleLineAuth. rewrite Hsame. reflexivity.
Qed.

(** X23.  The first auth-bootstrap for an external id, when the store takes
    the lookup and the insert and the key it makes up is new: 200, and one
    user row is added at the end of [users], with the store's key and time
    stamps, the external id of the request and the display name
    [LINE User], whatever the access token of the request; [books] is not
    written. *)
Theorem auth_bootstrap_enrolls (req : LineAuthRequest) (w : World) :
  store_fault w (executed w) = None ->
  store_fault w (S (executed w)) = None ->
  (forall u, In u (users w) -> Users.line_user_id u <> LineUserID req) ->
  (forall u, In u (users w) -> Users.id u <> gen_random_uuid w (S (executed w))) ->
  exists w',
    handleLineAuth (Some req) w
    = (Done {| code := StatusOK; body := Message "Auth pre-check successful" |}, w')
    /\ books w' = books w
    /\ users w'
       = users w ++ [enrolled (gen_random_uuid w (S (executed w)))
                       (NOW w (S (executed w))) (LineUserID req)].
Proof.
  intros Hq Hi Hnew Hfresh.
  unfold handleLineAuth, bind, select. rewrite Hq.
  cbn [rows users_table].
  rewrite (select_rows_filter _ _ (in_scope_line_user_id (LineUserID req))).
  rewrite render_all_star.
  replace (filter (fun u => String.eqb (Users.line_user_id u) (LineUserID req)) (users w))
    with (@nil Users.row).
  2:{ symmetry. induction (users w) as [|u us IH]; [reflexivity|].
      cbn [filter].
      replace (String.eqb (Users.line_user_id u) (LineUserID req)) with false.
      - apply IH; intros v Hv; [apply Hnew|apply Hfresh]; right; exact Hv.
      - symmetry. apply String.eqb_neq. apply Hnew. left. reflexivity. }
  cbn [map]. unfold insert.
  cbn [executed executing store_fault gen_random_uuid NOW]. rewrite Hi.
  cbn [not_null users_table Users.not_null forallb given existsb fst
       String.eqb Ascii.eqb Bool.eqb orb andb].
  cbn [blank users_table assign assign_all Users.assign Users.blank
       String.eqb Ascii.eqb Bool.eqb].
  cbn [violates users_table users executing Users.id Users.line_user_id].
  rewrite existsb_false.
  2:{ intros u Hu. apply String.eqb_neq. apply Hfresh. exact Hu. }
  rewrite existsb_false.
  2:{ intros u Hu. apply String.eqb_neq. apply Hnew. exact Hu. }
  eexists. split; [reflexivity|]. split; reflexivity.
Qed.

Lemma auth_bootstrap_enrolls_witness :
  let req := {| LineAccessToken := "access-token"; LineUserID := "U0c1f1d5e77" |} in
  let w := Shelf.two_readers in
  (store_fault w (executed w) = None /\ store_fault w (S (executed w)) = None)
  /\ (forall u, In u (users w) -> Users.line_user_id u <> LineUserID req)
  /\ (forall u, In u (users w) -> Users.id u <> gen_random_uuid w (S (executed w)))
  /\ map Users.line_user_id (users (snd (handleLineAuth (Some req) w)))
     = ["U4af4980629"; "U9d2c7b3a40"; "U0c1f1d5e77"].
Proof.
  intros req w.
  assert (Hq : store_fault w (executed w) = None) by reflexivity.
  assert (Hi : store_fault w (S (executed w)) = None) by reflexivity.
  assert (Hnew : forall u, In u (users w) -> Users.line_user_id u <> LineUserID req).
  { intros u [<-|[<-|[]]]; discriminate. }
  assert (Hfresh : forall u, In u (users w) ->
                     Users.id u <> gen_random_uuid w (S (executed w))).
  { intros u [<-|[<-|[]]]; vm_compute; discriminate. }
  split; [split; assumption|]. split; [exact Hnew|]. split; [exact Hfresh|].
  destruct (auth_bootstrap_enrolls req w Hq Hi Hnew Hfresh) as [w' [Hrun [_ Hu]]].
  rewrite Hrun. cbn [snd]. rewrite Hu. vm_compute. reflexivity.
Defined.

(** ** The gate of the sweep *)

(** X24.  The sweep is open when no cron secret is set, whatever the
    [Authorization] header, and with a secret set it lets through the header
    that is [Bearer], a space and the secret: in both cases the query is sent
    to the store and the answer is 200, or 500 when the query fails. *)
Theorem cron_gate_lets_through (now : Time) (authorization : string) (w : World) :
  lookup_env "CRON_SECRET" (environ w) = ""
  \/ authorization = ("Bearer " ++ lookup_env "CRON_SECRET" (environ w))%string ->
  exists resp w',
    handleCheckDeadlines now authorization w = (Done resp, w')
    /\ (code resp = StatusOK \/ code resp = StatusInternalServerError)
    /\ (code resp = StatusInternalServerError <-> store_fault w (executed w) <> None)
    /\ (executed w < executed w')%nat.
Proof.
  intros Hopen.
  assert (Hgo : goes_to_store w (CronCheck authorization) = true).
  { unfold goes_to_store. cbv zeta. apply negb_true_iff. apply andb_false_iff.
    destruct Hopen as [Hnone | Hright].
    - left. rewrite Hnone. reflexivity.
    - right. rewrite Hright, String.eqb_refl. reflexivity. }
  rewrite (handleCheckDeadlines_authorized _ _ _ Hgo).
  destruct (store_fault w (executed w)) as [e|].
  { do 2 eexists. split; [reflexivity|]. split; [right; reflexivity|].
    split; [split; [discriminate|reflexivity]|]. cbn. lia. }
  match goal with
  | |- context [range_books ?bs 0%nat ?w1] =>
      destruct (range_books_bounds bs 0%nat w1) as [n [w' [Hrun [_ [_ [_ Hcalls]]]]]]
  end.
  rewrite Hrun. do 2 eexists. split; [reflexivity|]. split; [left; reflexivity|].
  split; [split; [discriminate|intros H; contradiction]|].
  cbn [executed executing] in Hcalls. lia.
Qed.

Lemma cron_gate_lets_through_witness :
  let w := Sample.healthy [Sample.reader] [Sample.sicp]
             (("CRON_SECRET", "s3cret") :: Sample.token) in
  (lookup_env "CRON_SECRET" (environ w) = ""
   \/ "Bearer s3cret" = ("Bearer " ++ lookup_env "CRON_SECRET" (environ w))%string)
  /\ exists resp w',
       handleCheckDeadlines Sample.jun1 "Bearer s3cret" w = (Done resp, w')
       /\ (code resp = StatusOK \/ code resp = StatusInternalServerError)
       /\ (executed w < executed w')%nat.
Proof.
  intros w.
  assert (H : lookup_env "CRON_SECRET" (environ w) = ""
              \/ "Bearer s3cret" = ("Bearer " ++ lookup_env "CRON_SECRET" (environ w))%string)
    by (right; reflexivity).
  split; [exact H|].
  destruct (cron_gate_lets_through Sample.jun1 "Bearer s3cret" w H)
    as [resp [w' [Hrun [Hcode [_ Hcalls]]]]].
  exists resp, w'. split; [exact Hrun|]. split; [exact Hcode|exact Hcalls].
Defined.
